(** * On-page SEO audit: a shallow embedding of [seo_audit.py]

    The development follows the nested functions of
    [run_enhanced_seo_audit] one by one.  Python integers are [Z], Python
    [str] values are [string] (read as sequences of code points below 256),
    Python lists are [list], dictionaries that are iterated in insertion
    order ([Counter], the page records) are association lists, and code that
    can raise is written in a small exception monad. *)

From Stdlib Require Import ZArith QArith List String Ascii DecimalString Bool Lia.
From Stdlib Require Import Sorted Permutation.
Import ListNotations.

Open Scope string_scope.
Open Scope list_scope.
Open Scope Z_scope.

(** ** Python primitives used by the audit *)

Module Py.

(** [len] of a list and of a string. *)
Definition len {A : Type} (l : list A) : Z := Z.of_nat (List.length l).
Definition slen (s : string) : Z := Z.of_nat (String.length s).

(** [l[:n]]: a negative bound counts from the end of the list. *)
Definition slice_to {A : Type} (n : Z) (l : list A) : list A :=
  if 0 <=? n then firstn (Z.to_nat n) l
  else firstn (Z.to_nat (len l + n)) l.

Definition code (c : ascii) : nat := nat_of_ascii c.

Definition in_range (lo hi : nat) (c : ascii) : bool :=
  (Nat.leb lo (code c) && Nat.leb (code c) hi)%bool.

(** Character classes, for code points below 256. *)
Definition is_upper (c : ascii) : bool := in_range 65 90 c.
Definition is_lower (c : ascii) : bool := in_range 97 122 c.

(** The class [[a-zA-Z]]. *)
Definition is_alpha (c : ascii) : bool := (is_upper c || is_lower c)%bool.

(** The class [0-9]. *)
Definition is_ascii_digit (c : ascii) : bool := in_range 48 57 c.

(** [str.isdigit] for one character: the decimal digits and the superscript
    digits. *)
Definition is_digit (c : ascii) : bool :=
  (in_range 48 57 c || in_range 178 179 c || Nat.eqb (code c) 185)%bool.

(** [str.isspace] for one character. *)
Definition isspace (c : ascii) : bool :=
  (in_range 9 13 c || in_range 28 32 c
   || Nat.eqb (code c) 133 || Nat.eqb (code c) 160)%bool.

(** The class [\w] of the [re] module on [str]: underscore and every
    alphanumeric character. *)
Definition is_word (c : ascii) : bool :=
  (in_range 48 57 c || in_range 65 90 c || Nat.eqb (code c) 95
   || in_range 97 122 c || Nat.eqb (code c) 170 || in_range 178 179 c
   || Nat.eqb (code c) 181 || in_range 185 186 c || in_range 188 190 c
   || in_range 192 214 c || in_range 216 246 c || in_range 248 255 c)%bool.

(** [str.lower] for one character. *)
Definition lower_char (c : ascii) : ascii :=
  if (in_range 65 90 c || in_range 192 214 c || in_range 216 222 c)%bool
  then ascii_of_nat (code c + 32) else c.

(** [str.lower]. *)
Fixpoint lower (s : string) : string :=
  match s with
  | EmptyString => EmptyString
  | String c s' => String (lower_char c) (lower s')
  end.

(** [str.isdigit]: every character is a digit and there is at least one. *)
Fixpoint all_chars (p : ascii -> bool) (s : string) : bool :=
  match s with
  | EmptyString => true
  | String c s' => (p c && all_chars p s')%bool
  end.

Definition isdigit (s : string) : bool :=
  match s with
  | EmptyString => false
  | _ => all_chars is_digit s
  end.

Fixpoint any_char (p : ascii -> bool) (s : string) : bool :=
  match s with
  | EmptyString => false
  | String c s' => (p c || any_char p s')%bool
  end.

(** [c in s] for a one-character string [c]. *)
Definition contains_char (c : ascii) (s : string) : bool :=
  any_char (Ascii.eqb c) s.

(** [s.split(sep)] for a one-character separator: every occurrence of the
    separator ends a segment, so [k] separators give [k + 1] segments and
    the empty string gives one empty segment. *)
Fixpoint split_from (sep : ascii -> bool) (cur : string) (s : string)
  : list string :=
  match s with
  | EmptyString => [cur]
  | String c s' =>
      if sep c then cur :: split_from sep EmptyString s'
      else split_from sep (cur ++ String c EmptyString)%string s'
  end.

Definition split_char (c : ascii) (s : string) : list string :=
  split_from (Ascii.eqb c) EmptyString s.

Definition nonempty (s : string) : bool :=
  match s with EmptyString => false | _ => true end.

(** [s.split()]: the maximal runs of characters that are not white space. *)
Definition split (s : string) : list string :=
  filter nonempty (split_from isspace EmptyString s).

(** [s.lstrip(chars)], [s.rstrip(chars)] and [s.strip(chars)]. *)
Fixpoint lstrip (p : ascii -> bool) (s : string) : string :=
  match s with
  | EmptyString => EmptyString
  | String c s' => if p c then lstrip p s' else s
  end.

Fixpoint rstrip (p : ascii -> bool) (s : string) : string :=
  match s with
  | EmptyString => EmptyString
  | String c s' =>
      match rstrip p s' with
      | EmptyString => if p c then EmptyString else String c EmptyString
      | r => String c r
      end
  end.

Definition strip_chars (p : ascii -> bool) (s : string) : string :=
  rstrip p (lstrip p s).

(** [s.strip()] removes white space at both ends. *)
Definition strip (s : string) : string := strip_chars isspace s.

(** [len(set(l))] for a list of strings. *)
Definition count_distinct (l : list string) : Z :=
  len (nodup string_dec l).

(** [sub in s]. *)
Fixpoint is_prefix (p s : string) : bool :=
  match p, s with
  | EmptyString, _ => true
  | String a p', String b s' => (Ascii.eqb a b && is_prefix p' s')%bool
  | String _ _, EmptyString => false
  end.

Fixpoint contains (sub s : string) : bool :=
  (is_prefix sub s
   || match s with
      | EmptyString => false
      | String _ s' => contains sub s'
      end)%bool.

(** [str(n)] of an integer. *)
Definition str (n : Z) : string := NilZero.string_of_int (Z.to_int n).

(** [s * n]. *)
Fixpoint repeat_str (s : string) (n : nat) : string :=
  match n with
  | O => EmptyString
  | S n' => (s ++ repeat_str s n')%string
  end.

End Py.

(** ** Exceptions *)

(** An exception carries its class name and the text that [str(e)] gives. *)
Record exn := Exn { exn_class : string; exn_str : string }.

Inductive outcome (A : Type) : Type :=
| Ret (a : A)
| Raise (e : exn).
Arguments Ret {A} a.
Arguments Raise {A} e.

Definition bind {A B : Type} (m : outcome A) (k : A -> outcome B) : outcome B :=
  match m with
  | Ret a => k a
  | Raise e => Raise e
  end.

Notation "x <- m ;; k" := (bind m (fun x => k))
  (at level 61, m at next level, right associativity).

(** [try: body except Exception as e: handler(e)]. *)
Definition try_except {A : Type} (body : outcome A) (handler : exn -> A) : A :=
  match body with
  | Ret a => a
  | Raise e => handler e
  end.

(** ** The field analyzers *)

(** Each analyzer returns a dictionary with its metrics, its issues and its
    recommendations; the metrics differ from one analyzer to the next. *)

Record title_meta_result := {
  title_length : Z;
  meta_desc_length : Z;
  tm_issues : list string;
  tm_recommendations : list string
}.

Record header_result := {
  h1_count : Z;
  h2_count : Z;
  h3_count : Z;
  hd_issues : list string;
  hd_recommendations : list string
}.

Record url_result := {
  url_depth : Z;
  url_length : Z;
  url_issues : list string;
  url_recommendations : list string;
  url_score : string
}.

Record content_result := {
  cq_word_count : Z;
  readability_score : string;
  cq_issues : list string;
  cq_recommendations : list string
}.

(** [not s or s == "N/A"]: the test for a missing title or description. *)
Definition is_missing (s : string) : bool :=
  (negb (Py.nonempty s) || String.eqb s "N/A")%bool.

(** The title branch of [analyze_title_meta]: issues and recommendations
    appended for the title. *)
Definition title_checks (title : string) : list string * list string :=
  if is_missing title then (["Missing title tag"], [])
  else
    let '(issues, recs) :=
      if Py.slen title <? 30 then
        (["Title too short"], ["Expand title to 50-60 characters"])
      else if 60 <? Py.slen title then
        (["Title too long"], ["Shorten title to under 60 characters"])
      else ([], []) in
    let title_words := Py.split (Py.lower title) in
    if negb (Py.len title_words =? Py.count_distinct title_words) then
      (issues ++ ["Duplicate words in title"], recs)
    else (issues, recs).

(** The meta description branch of [analyze_title_meta]. *)
Definition meta_checks (meta_desc : string) : list string * list string :=
  if is_missing meta_desc then (["Missing meta description"], [])
  else if Py.slen meta_desc <? 120 then
    (["Meta description too short"],
     ["Expand meta description to 150-160 characters"])
  else if 160 <? Py.slen meta_desc then
    (["Meta description too long"],
     ["Shorten meta description to under 160 characters"])
  else ([], []).

Definition analyze_title_meta (title meta_desc url : string)
  : title_meta_result :=
  let '(ti, tr) := title_checks title in
  let '(mi, mr) := meta_checks meta_desc in
  {| title_length := if String.eqb title "N/A" then 0 else Py.slen title;
     meta_desc_length :=
       if String.eqb meta_desc "N/A" then 0 else Py.slen meta_desc;
     tm_issues := ti ++ mi;
     tm_recommendations := tr ++ mr |}.

Definition analyze_headers (h1_tags h2_tags h3_tags : list string)
  : header_result :=
  let '(i1, r1) :=
    match h1_tags with
    | [] => (["Missing H1 tag"], [])
    | _ => if 1 <? Py.len h1_tags
           then (["Multiple H1 tags"], ["Use only one H1 tag per page"])
           else ([], [])
    end in
  let total_headers := Py.len h1_tags + Py.len h2_tags + Py.len h3_tags in
  let '(i2, r2) :=
    if total_headers =? 0 then (["No header tags found"], [])
    else if total_headers <? 3 then
      ([], ["Add more header tags for better content structure"])
    else ([], []) in
  {| h1_count := Py.len h1_tags;
     h2_count := Py.len h2_tags;
     h3_count := Py.len h3_tags;
     hd_issues := i1 ++ i2;
     hd_recommendations := r1 ++ r2 |}.

(** ** The score calculator *)

Definition calculate_seo_score (title_meta : title_meta_result)
  (header : header_result) (url : url_result) (content : content_result)
  (internal_links images_without_alt : Z) : Z :=
  let score := 100 in
  let score := score - Py.len (tm_issues title_meta) * 10 in
  let score := score - Py.len (hd_issues header) * 10 in
  let score := score - Py.len (url_issues url) * 5 in
  let score := score - Py.len (cq_issues content) * 10 in
  let score := score - Z.min (images_without_alt * 2) 20 in
  let score := if 3 <=? internal_links then score + 5 else score in
  Z.max 0 (Z.min 100 score).

(** ** [urllib.parse.urlparse] *)

(** The parser of the standard library, for the components the audit reads.
    [urlparse] follows the splitting of [urlsplit] and [urlparse] step by
    step; the checks that make the library raise [ValueError] on a malformed
    network location are in [check_netloc], and [urlparse_or_raise] is the
    splitting with those checks.  The URL analyzer is given the URL of a
    page that [requests.get] has accepted and uses the splitting; the link
    analysis parses the references found in a page and uses the version
    with exceptions. *)

Module Urllib.

Record parse_result := {
  scheme : string;
  netloc : string;
  path : string;
  params : string;
  query : string;
  fragment : string
}.

(** [s.partition(c)] without the separator: the text before the first
    character satisfying [p], and the text after it when there is one. *)
Fixpoint break_at (p : ascii -> bool) (s : string) : string * option string :=
  match s with
  | EmptyString => (EmptyString, None)
  | String c s' =>
      if p c then (EmptyString, Some s')
      else let '(b, a) := break_at p s' in (String c b, a)
  end.

(** The text before the first character satisfying [p], and the text from
    that character on. *)
Fixpoint span_until (p : ascii -> bool) (s : string) : string * string :=
  match s with
  | EmptyString => (EmptyString, EmptyString)
  | String c s' =>
      if p c then (EmptyString, s)
      else let '(b, a) := span_until p s' in (String c b, a)
  end.

Fixpoint remove_chars (p : ascii -> bool) (s : string) : string :=
  match s with
  | EmptyString => EmptyString
  | String c s' => if p c then remove_chars p s' else String c (remove_chars p s')
  end.

Definition is_char (x : string) (c : ascii) : bool :=
  match x with
  | String a EmptyString => Ascii.eqb a c
  | _ => false
  end.

Definition one_of (chars : string) (c : ascii) : bool :=
  Py.contains_char c chars.

Definition scheme_char (c : ascii) : bool :=
  (Py.is_alpha c || Py.is_ascii_digit c || one_of "+-." c)%bool.

Definition uses_params : list string :=
  [""; "ftp"; "hdl"; "prospero"; "http"; "imap"; "https"; "shttp"; "rtsp";
   "rtspu"; "sip"; "sips"; "mms"; "sftp"; "tel"].

(** The scheme, when the text before the first colon is a scheme. *)
Definition split_scheme (url : string) : string * string :=
  match url, break_at (is_char ":") url with
  | String c0 _, (String _ _ as before, Some rest) =>
      if (Py.is_alpha c0 && Py.all_chars scheme_char before)%bool
      then (Py.lower before, rest)
      else (EmptyString, url)
  | _, _ => (EmptyString, url)
  end.

(** [_splitnetloc(url, 2)] after a leading double slash. *)
Definition split_netloc (url : string) : string * string :=
  match url with
  | String a (String b rest) =>
      if (is_char "/" a && is_char "/" b)%bool
      then span_until (one_of "/?#") rest
      else (EmptyString, url)
  | _ => (EmptyString, url)
  end.

Definition split_first (c : string) (url : string) : string * string :=
  match break_at (is_char c) url with
  | (b, Some a) => (b, a)
  | (_, None) => (url, EmptyString)
  end.

(** The text before the last slash, and the text from the last slash on. *)
Fixpoint split_last_slash (s : string) : option (string * string) :=
  match s with
  | EmptyString => None
  | String c s' =>
      match split_last_slash s' with
      | Some (b, t) => Some (String c b, t)
      | None => if is_char "/" c then Some (EmptyString, s) else None
      end
  end.

(** [_splitparams]: the parameters follow the first semicolon of the last
    path segment. *)
Definition split_params (url : string) : string * string :=
  match split_last_slash url with
  | Some (b, t) =>
      match break_at (is_char ";") t with
      | (t1, Some ps) => ((b ++ t1)%string, ps)
      | (_, None) => (url, EmptyString)
      end
  | None => split_first ";" url
  end.

Definition urlparse (url0 : string) : parse_result :=
  let url := Py.lstrip (fun c => Nat.leb (Py.code c) 32) url0 in
  let url := remove_chars (fun c => List.existsb (Nat.eqb (Py.code c))
                                      [9; 10; 13]%nat) url in
  let '(sch, url) := split_scheme url in
  let '(loc, url) := split_netloc url in
  let '(url, frag) := split_first "#" url in
  let '(url, qry) := split_first "?" url in
  let '(url, prm) :=
    if (List.existsb (String.eqb sch) uses_params
        && Py.contains_char ";" url)%bool
    then split_params url else (url, EmptyString) in
  {| scheme := sch; netloc := loc; path := url; params := prm;
     query := qry; fragment := frag |}.

(** The exceptions of [urlsplit].  It raises [ValueError] when the network
    location holds one of the two square brackets without the other.  A
    location that holds both goes through a validation of the bracketed host
    that differs from one release of the library to the next: [bracketed]
    stands for it.  The last check of [urlsplit], on characters that
    normalise to a delimiter, never fires on code points below 256. *)
Definition check_netloc (bracketed : string -> outcome unit) (loc : string)
  : outcome unit :=
  match Py.contains_char "[" loc, Py.contains_char "]" loc with
  | true, true => bracketed loc
  | false, false => Ret tt
  | _, _ => Raise (Exn "ValueError" "Invalid IPv6 URL")
  end.

(** [urlparse(url)] with its exceptions. *)
Definition urlparse_or_raise (bracketed : string -> outcome unit)
  (url : string) : outcome parse_result :=
  let parsed := urlparse url in
  _ <- check_netloc bracketed (netloc parsed) ;;
  Ret parsed.

(** [urljoin(base, url)]: an empty base or an empty reference is answered at
    once; otherwise both are parsed, which may raise, and the reference is
    resolved against the base.  [resolve] is that resolution, which works on
    the parsed parts and raises nothing. *)
Definition urljoin (bracketed : string -> outcome unit)
  (resolve : string -> string -> string) (base url : string)
  : outcome string :=
  if negb (Py.nonempty base) then Ret url
  else if negb (Py.nonempty url) then Ret base
  else
    _ <- urlparse_or_raise bracketed base ;;
    _ <- urlparse_or_raise bracketed url ;;
    Ret (resolve base url).

End Urllib.

(** ** The URL structure analyzer *)

(** Findings collected so far: issues and recommendations. *)
Definition findings : Type := list string * list string.

(** [if cond: issues.append(..); recommendations.append(..)]. *)
Definition note (cond : bool) (issue rec : list string) (f : findings)
  : findings :=
  if cond then (fst f ++ issue, snd f ++ rec) else f.

(** [len(path.strip("/").split("/")) if path.strip("/") else 0]. *)
Definition path_depth (path : string) : Z :=
  let stripped := Py.strip_chars (Urllib.is_char "/") path in
  if Py.nonempty stripped then Py.len (Py.split_char "/" stripped) else 0.

Definition analyze_url_structure (url : string) : url_result :=
  let parsed := Urllib.urlparse url in
  let path := Urllib.path parsed in
  let depth := path_depth path in
  let f : findings := ([], []) in
  let f := note (4 <? depth) ["URL too deep"]
             ["Reduce URL depth to 3 levels or less"] f in
  let f := note (Py.contains_char "_" path) ["Contains underscores"]
             ["Replace underscores with hyphens"] f in
  let f := note (negb (Py.any_char Py.is_alpha path))
             ["No descriptive text in URL"]
             ["Add descriptive keywords to URL"] f in
  let f := note (100 <? Py.slen url) ["URL too long"]
             ["Shorten URL to under 100 characters"] f in
  let f := note (Py.nonempty (Urllib.query parsed))
             ["Contains URL parameters"] [] f in
  {| url_depth := depth;
     url_length := Py.slen url;
     url_issues := fst f;
     url_recommendations := snd f;
     url_score := match fst f with [] => "Good" | _ => "Needs Improvement" end |}.

(** ** [collections.Counter] *)

(** A counter is a dictionary, and a dictionary is iterated in the order in
    which its keys were first inserted: an association list without
    repeated keys. *)
Definition counter : Type := list (string * Z).

(** [c[k] += n]: a missing key counts as zero and is inserted at the end. *)
Fixpoint counter_add (k : string) (n : Z) (c : counter) : counter :=
  match c with
  | [] => [(k, n)]
  | (k', v) :: c' =>
      if String.eqb k k' then (k', v + n) :: c'
      else (k', v) :: counter_add k n c'
  end.

(** [Counter(words)]. *)
Definition Counter (words : list string) : counter :=
  fold_left (fun c w => counter_add w 1 c) words [].

(** [c[k]] read only. *)
Fixpoint counter_get (k : string) (c : counter) : Z :=
  match c with
  | [] => 0
  | (k', v) :: c' => if String.eqb k k' then v else counter_get k c'
  end.

(** [sorted(items, key=itemgetter(1), reverse=True)]: the sort is stable, so
    entries with equal counts keep their insertion order. *)
Fixpoint insert_desc (x : string * Z) (l : list (string * Z))
  : list (string * Z) :=
  match l with
  | [] => [x]
  | y :: l' => if snd x <? snd y then y :: insert_desc x l' else x :: l
  end.

Definition sort_desc (l : list (string * Z)) : list (string * Z) :=
  fold_right insert_desc [] l.

(** [c.most_common(n)]. *)
Definition most_common (n : Z) (c : counter) : list (string * Z) :=
  Py.slice_to n (sort_desc c).

(** [max(c.values())] of a non-empty counter. *)
Definition max_value (c : counter) : Z :=
  match c with
  | [] => 0
  | (_, v) :: c' => fold_left (fun m kv => Z.max m (snd kv)) c' v
  end.

(** ** Regular expressions of the audit *)

Module Re.

(** [re.split(r'[.!?]+', text)]: each maximal run of the three characters
    is one match; the text before each match is appended, and the text
    after the last match is appended at the end. *)
Definition sentence_end (c : ascii) : bool := Urllib.one_of ".!?" c.

Fixpoint split_runs (sep : ascii -> bool) (cur : string) (in_match : bool)
  (s : string) : list string :=
  match s with
  | EmptyString => [cur]
  | String c s' =>
      if sep c then
        if in_match then split_runs sep EmptyString true s'
        else cur :: split_runs sep EmptyString true s'
      else split_runs sep (cur ++ String c EmptyString)%string false s'
  end.

Definition split_sentences (text : string) : list string :=
  split_runs sentence_end EmptyString false text.

(** [re.findall(r'\b[a-zA-Z]{lo,hi}\b', text)].  The scanner keeps the
    character before the current position, to decide word boundaries. *)
Definition is_word_opt (c : option ascii) : bool :=
  match c with Some a => Py.is_word a | None => false end.

Definition head (s : string) : option ascii :=
  match s with EmptyString => None | String c _ => Some c end.

(** [\b] between the previous character and the rest of the text. *)
Definition boundary (prev : option ascii) (s : string) : bool :=
  xorb (is_word_opt prev) (is_word_opt (head s)).

(** The length of the run of letters that starts the text. *)
Fixpoint letters_run (s : string) : nat :=
  match s with
  | EmptyString => O
  | String c s' => if Py.is_alpha c then S (letters_run s') else O
  end.

Fixpoint split_at (k : nat) (s : string) : string * string :=
  match k, s with
  | S k', String c s' => let '(w, r) := split_at k' s' in (String c w, r)
  | _, _ => (EmptyString, s)
  end.

Fixpoint last_char (prev : option ascii) (w : string) : option ascii :=
  match w with
  | EmptyString => prev
  | String c w' => last_char (Some c) w'
  end.

(** The greedy quantifier takes [k] letters and gives them back one by one
    down to [lo] until the closing [\b] holds. *)
Fixpoint backtrack (lo : N) (must_advance : bool) (prev : option ascii)
  (s : string) (k : nat) : option (string * string) :=
  let '(w, r) := split_at k s in
  if (N.leb lo (N.of_nat k) && boundary (last_char prev w) r
      && (negb must_advance || Nat.ltb 0 k))%bool
  then Some (w, r)
  else match k with
       | O => None
       | S k' => backtrack lo must_advance prev s k'
       end.

(** One attempt to match at the current position. *)
Definition match_here (lo hi : N) (must_advance : bool)
  (prev : option ascii) (s : string) : option (string * string) :=
  if boundary prev s
  then backtrack lo must_advance prev s
         (N.to_nat (N.min hi (N.of_nat (letters_run s))))
  else None.

(** The search loop: after an empty match the next match at the same
    position must not be empty. *)
Fixpoint findall_from (fuel : nat) (lo hi : N) (must_advance : bool)
  (prev : option ascii) (s : string) : list string :=
  match fuel with
  | O => []
  | S fuel' =>
      match match_here lo hi must_advance prev s with
      | Some (w, r) =>
          w :: findall_from fuel' lo hi (negb (Py.nonempty w))
                 (last_char prev w) r
      | None =>
          match s with
          | EmptyString => []
          | String c s' => findall_from fuel' lo hi false (Some c) s'
          end
      end
  end.

(** Two steps of the loop move at least one character forward. *)
Definition findall_words (lo hi : N) (text : string) : list string :=
  findall_from (2 * String.length text + 2) lo hi false None text.

(** The largest repetition count the pattern compiler accepts. *)
Definition MAXREPEAT : Z := 4294967295.

(** With a negative bound the braces are no quantifier: the pattern is one
    letter followed by the text of the braces, between two [\b]. *)
Definition braces (min_length max_length : Z) : string :=
  ("{" ++ Py.str min_length ++ "," ++ Py.str max_length ++ "}")%string.

Fixpoint drop_prefix (p s : string) : option string :=
  match p, s with
  | EmptyString, _ => Some s
  | String a p', String b s' =>
      if Ascii.eqb a b then drop_prefix p' s' else None
  | String _ _, EmptyString => None
  end.

Definition match_literal_here (lit : string) (prev : option ascii)
  (s : string) : option (string * string) :=
  match s with
  | String c rest =>
      if (boundary prev s && Py.is_alpha c)%bool then
        match drop_prefix lit rest with
        | Some r =>
            if boundary (last_char (Some c) lit) r
            then Some (String c lit, r)
            else None
        | None => None
        end
      else None
  | EmptyString => None
  end.

Fixpoint findall_literal_from (fuel : nat) (lit : string)
  (prev : option ascii) (s : string) : list string :=
  match fuel with
  | O => []
  | S fuel' =>
      match match_literal_here lit prev s with
      | Some (w, r) => w :: findall_literal_from fuel' lit (last_char prev w) r
      | None =>
          match s with
          | EmptyString => []
          | String c s' => findall_literal_from fuel' lit (Some c) s'
          end
      end
  end.

(** Every step of this loop moves at least one character forward. *)
Definition findall_literal (lit text : string) : list string :=
  findall_literal_from (S (String.length text)) lit None text.

End Re.

(** ** The keyword extractor *)

Definition stop_words : list string :=
  ["this"; "that"; "with"; "have"; "will"; "from"; "they"; "know"; "want";
   "been"; "good"; "much"; "some"; "time"; "very"; "when"; "come"; "here";
   "just"; "like"; "long"; "make"; "many"; "over"; "such"; "take"; "than";
   "them"; "well"; "were"; "what"; "your"; "page"; "website"; "site"].

Definition is_stop_word (w : string) : bool :=
  List.existsb (String.eqb w) stop_words.

(** [re.findall(r'\b[a-zA-Z]{' + str(min_length) + ',' + str(max_length)
    + '}\b', text)].  A negative bound leaves braces that are no quantifier;
    otherwise compiling the quantifier fails when a bound is too large or
    when the lower bound exceeds the upper one. *)
Definition find_words (text : string) (min_length max_length : Z)
  : outcome (list string) :=
  if ((min_length <? 0) || (max_length <? 0))%bool
  then Ret (Re.findall_literal (Re.braces min_length max_length) text)
  else if ((Re.MAXREPEAT <=? min_length) || (Re.MAXREPEAT <=? max_length))%bool
  then Raise (Exn "OverflowError" "the repetition number is too large")
  else if max_length <? min_length
  then Raise (Exn "re.error"
                "min repeat greater than max repeat at position 11")
  else Ret (Re.findall_words (Z.to_N min_length) (Z.to_N max_length) text).

Definition get_keywords_bounds (text : string) (min_length max_length : Z)
  : outcome counter :=
  words <- find_words (Py.lower text) min_length max_length ;;
  let filtered_words :=
    filter (fun word =>
              (negb (is_stop_word word) && negb (Py.isdigit word))%bool)
      words in
  Ret (Counter filtered_words).

(** The extractor as the page auditor calls it, with the default bounds. *)
Definition get_keywords (text : string) : outcome counter :=
  get_keywords_bounds text 4 20.

(** The extractor without the test for numeric tokens. *)
Definition get_keywords_no_digit_filter (text : string)
  (min_length max_length : Z) : outcome counter :=
  words <- find_words (Py.lower text) min_length max_length ;;
  let filtered_words := filter (fun word => negb (is_stop_word word)) words in
  Ret (Counter filtered_words).

(** ** The content quality analyzer *)

Definition division_by_zero : exn :=
  Exn "ZeroDivisionError" "division by zero".

(** [a / b] on integers.  Python divides in floating point; the model
    divides over the rationals.  The comparisons of the analyzer agree with
    the floating-point ones as long as the counts stay far below [2^53],
    which every text in memory does. *)
Definition divide (a b : Z) : outcome Q :=
  if b =? 0 then Raise division_by_zero
  else Ret (inject_Z a / inject_Z b)%Q.

(** [x > threshold]. *)
Definition exceeds (x : Q) (threshold : Z) : bool :=
  negb (Qle_bool x (inject_Z threshold)).

(** The number of sentences: [len(re.split(r'[.!?]+', text_content))]. *)
Definition sentence_count (text_content : string) : Z :=
  Py.len (Re.split_sentences text_content).

Definition analyze_content_quality (word_count : Z) (keyword_density : counter)
  (text_content : string) : outcome content_result :=
  let f : findings := ([], []) in
  let f :=
    if word_count <? 300 then
      note true ["Content too short"] ["Expand content to at least 300 words"] f
    else if 3000 <? word_count then
      note true [] ["Consider breaking long content into multiple pages"] f
    else f in
  f <- match keyword_density with
       | [] => Ret f
       | _ =>
           share <- divide (max_value keyword_density) word_count ;;
           let top_keyword_density := (share * inject_Z 100)%Q in
           Ret (note (exceeds top_keyword_density 3)
                  ["Keyword over-optimization"]
                  ["Reduce keyword density to 2-3%"] f)
       end ;;
  let sentences := sentence_count text_content in
  f <- (if 0 <? sentences then
          avg_words_per_sentence <- divide word_count sentences ;;
          Ret (note (exceeds avg_words_per_sentence 20) []
                 ["Consider shorter sentences for better readability"] f)
        else Ret f) ;;
  Ret {| cq_word_count := word_count;
         readability_score := if 300 <=? word_count then "Good" else "Poor";
         cq_issues := fst f;
         cq_recommendations := snd f |}.

(** ** The outside world *)

(** What [requests.get] returns. *)
Record http_response := {
  status_code : Z;
  (** the message of the [HTTPError] that [raise_for_status] builds *)
  error_message : string;
  (** [response.headers.get('content-type')] *)
  content_type : option string;
  (** [response.text] and [response.content] *)
  body : string
}.

(** [response.raise_for_status()]. *)
Definition raise_for_status (r : http_response) : outcome unit :=
  if (400 <=? status_code r) && (status_code r <? 600)
  then Raise (Exn "HTTPError" (error_message r))
  else Ret tt.

(** An anchor with an [href] attribute. *)
Record anchor := {
  href : string;
  a_text : string;            (** [a.get_text(strip=True)] *)
  a_title : option string     (** the [title] attribute *)
}.

(** The queries the auditor runs on a parsed page, with their answers. *)
Record soup := {
  (** [soup.title]: no tag, or a tag whose [.string] may be [None] *)
  soup_title : option (option string);
  (** [soup.find("meta", attrs={"name": n})]: no tag, or the [content]
      attribute of the first such tag when it has one *)
  soup_meta : string -> option (option string);
  soup_h1 : list string;
  soup_h2 : list string;
  soup_h3 : list string;
  (** the [alt] attribute of every [img] *)
  soup_images : list (option string);
  (** [soup.get_text(separator=' ', strip=True)] *)
  soup_text : string;
  (** [soup.find_all("a", href=True)] *)
  soup_anchors : list anchor;
  (** what [extract_breadcrumbs] finds; the selectors and the JSON-LD scan
      work on the document tree, which is not modelled *)
  soup_breadcrumbs : list string
}.

(** An XML element: tag with its namespace, text, children. *)
#[warnings="-register-all"]
Inductive element :=
| Element (tag : string) (text : option string) (children : list element).

Definition tag_of (e : element) : string := let 'Element t _ _ := e in t.
Definition text_of (e : element) : option string := let 'Element _ t _ := e in t.
Definition children_of (e : element) : list element :=
  let 'Element _ _ c := e in c.

(** [e.findall(".//tag")]: the descendants with that tag, in document order. *)
Fixpoint descendants (e : element) : list element :=
  let 'Element _ _ cs := e in
  flat_map (fun c => c :: descendants c) cs.

Definition findall (tag : string) (e : element) : list element :=
  filter (fun d => String.eqb (tag_of d) tag) (descendants e).

(** [e.find(tag)]: the first child with that tag. *)
Definition find (tag : string) (e : element) : option element :=
  List.find (fun d => String.eqb (tag_of d) tag) (children_of e).

Record world := {
  (** [requests.get(url, ...)]: a response, or an exception (time-out,
      refused connection, invalid URL) *)
  requests_get : string -> outcome http_response;
  (** [BeautifulSoup(text, 'html.parser')] *)
  html_parser : string -> outcome soup;
  (** [ET.fromstring(content)] *)
  xml_parser : string -> outcome element;
  (** the resolution of a reference against a base that
      [urllib.parse.urljoin] performs once it has parsed both *)
  resolve_reference : string -> string -> string;
  (** the validation that [urllib.parse.urlsplit] runs on a network location
      holding both square brackets; it raises [ValueError] on a host that is
      no address *)
  bracketed_netloc : string -> outcome unit
}.

(** [urljoin] and [urlparse] as the auditor calls them. *)
Definition urljoin_of (w : world) (base url : string) : outcome string :=
  Urllib.urljoin (bracketed_netloc w) (resolve_reference w) base url.

Definition urlparse_of (w : world) (url : string)
  : outcome Urllib.parse_result :=
  Urllib.urlparse_or_raise (bracketed_netloc w) url.

Definition attribute_error (attr : string) : exn :=
  Exn "AttributeError"
    ("'NoneType' object has no attribute '" ++ attr ++ "'")%string.

(** [x.strip()] when [x] may be [None]. *)
Definition strip_or_raise (x : option string) : outcome string :=
  match x with
  | Some s => Ret (Py.strip s)
  | None => Raise (attribute_error "strip")
  end.

(** ** Internal and external links *)

Record internal_link := {
  il_url : string;
  il_anchor_text : string;
  il_title : string
}.

Record external_link := {
  el_url : string;
  el_anchor_text : string
}.

Definition starts_with_hash (s : string) : bool := Py.is_prefix "#" s.

(** The body of the loop for one link: the reference is joined to the page
    URL and both are parsed, each of which may raise [ValueError]; the
    result is the resolved URL and whether it has the network location of
    the page. *)
Definition resolve_link (join : string -> string -> outcome string)
  (parse : string -> outcome Urllib.parse_result) (base_url h : string)
  : outcome (string * bool) :=
  full_url <- join base_url h ;;
  parsed_base <- parse base_url ;;
  parsed_link <- parse full_url ;;
  Ret (full_url,
       String.eqb (Urllib.netloc parsed_link) (Urllib.netloc parsed_base)).

(** The loop over the anchors; an exception leaves the loop and the
    function. *)
Fixpoint analyze_internal_links (join : string -> string -> outcome string)
  (parse : string -> outcome Urllib.parse_result)
  (anchors : list anchor) (base_url : string)
  : outcome (list internal_link * list external_link) :=
  match anchors with
  | [] => Ret ([], [])
  | a :: rest =>
      let h := Py.strip (href a) in
      if (negb (Py.nonempty h) || starts_with_hash h)%bool
      then analyze_internal_links join parse rest base_url
      else
        link <- resolve_link join parse base_url h ;;
        links <- analyze_internal_links join parse rest base_url ;;
        let '(full_url, same_netloc) := link in
        let '(internal, external) := links in
        if same_netloc
        then Ret ({| il_url := full_url; il_anchor_text := a_text a;
                     il_title := match a_title a with
                                 | Some t => t
                                 | None => ""
                                 end |} :: internal, external)
        else Ret (internal,
                  {| el_url := full_url; el_anchor_text := a_text a |}
                    :: external)
  end.

(** ** The page auditor *)

(** The analysis fields of an audited page, one per key of the dictionary
    that [get_seo_data] returns on success (the key ["URL"] apart). *)
Record page_audit := {
  Title : string;
  Title_Length : Z;
  Meta_Description : string;
  Meta_Description_Length : Z;
  Meta_Keywords : string;
  H1_Tags : list string;
  H2_Tags : list string;
  H3_Tags : list string;
  H1_Count : Z;
  H2_Count : Z;
  H3_Count : Z;
  Images_Total : Z;
  Images_Without_Alt : Z;
  Alt_Texts : list string;
  Breadcrumbs : list string;
  Internal_Links : list internal_link;
  External_Links : list external_link;
  Internal_Links_Count : Z;
  External_Links_Count : Z;
  Word_Count : Z;
  Keyword_Density : counter;
  Top_Keywords : list (string * Z);
  Robots : string;
  URL_Depth : Z;
  URL_Length : Z;
  Title_Meta_Issues : list string;
  Header_Issues : list string;
  URL_Issues : list string;
  Content_Issues : list string;
  Recommendations : list string;
  Overall_Score : Z
}.

(** [get_seo_data] returns one of two dictionaries: the full record, or the
    URL with the text of the exception. *)
Inductive page_record :=
| Audited (url : string) (a : page_audit)
| Failed (url : string) (error : string).

(** The keys of the dictionary, in the order of the source. *)
Definition audit_keys : list string :=
  ["URL"; "Title"; "Title Length"; "Meta Description";
   "Meta Description Length"; "Meta Keywords"; "H1 Tags"; "H2 Tags";
   "H3 Tags"; "H1 Count"; "H2 Count"; "H3 Count"; "Images Total";
   "Images Without Alt"; "Alt Texts"; "Breadcrumbs"; "Internal Links";
   "External Links"; "Internal Links Count"; "External Links Count";
   "Word Count"; "Keyword Density"; "Top Keywords"; "Robots"; "URL Depth";
   "URL Length"; "Title Meta Issues"; "Header Issues"; "URL Issues";
   "Content Issues"; "Recommendations"; "Overall Score"].

Definition record_keys (r : page_record) : list string :=
  match r with
  | Audited _ _ => audit_keys
  | Failed _ _ => ["URL"; "Error"]
  end.

(** Python truth of an optional attribute: present and not empty. *)
Definition truthy (x : option string) : bool :=
  match x with Some s => Py.nonempty s | None => false end.

Definition or_empty (x : option string) : string :=
  match x with Some s => s | None => "" end.

(** [tag.get("content", "").strip() if tag else default]. *)
Definition meta_content (s : soup) (name default : string) : string :=
  match soup_meta s name with
  | Some content => Py.strip (or_empty content)
  | None => default
  end.

(** The body of the [try] block of [get_seo_data]. *)
Definition audit_page (w : world) (url : string) : outcome page_audit :=
  response <- requests_get w url ;;
  _ <- raise_for_status response ;;
  soup <- html_parser w (body response) ;;
  title <- match soup_title soup with
           | Some s => strip_or_raise s
           | None => Ret "N/A"
           end ;;
  let meta_description := meta_content soup "description" "N/A" in
  let meta_keywords := meta_content soup "keywords" "N/A" in
  let robots_content :=
    match soup_meta soup "robots" with
    | Some content => Py.lower (Py.strip (or_empty content))
    | None => "index,follow"
    end in
  let h1_tags := soup_h1 soup in
  let h2_tags := soup_h2 soup in
  let h3_tags := soup_h3 soup in
  let images := soup_images soup in
  let alt_texts := map (fun alt => Py.strip (or_empty alt)) (filter truthy images) in
  let images_without_alt :=
    Py.len (filter (fun alt => negb (truthy alt)) images) in
  let page_text := soup_text soup in
  let word_count := Py.len (Py.split page_text) in
  keyword_density <- get_keywords page_text ;;
  links <-
    analyze_internal_links (urljoin_of w) (urlparse_of w) (soup_anchors soup) url ;;
  let '(internal_links, external_links) := links in
  let breadcrumbs := soup_breadcrumbs soup in
  let title_meta_analysis := analyze_title_meta title meta_description url in
  let header_analysis := analyze_headers h1_tags h2_tags h3_tags in
  let url_analysis := analyze_url_structure url in
  content_analysis <-
    analyze_content_quality word_count keyword_density page_text ;;
  Ret {| Title := title;
         Title_Length := title_length title_meta_analysis;
         Meta_Description := meta_description;
         Meta_Description_Length := meta_desc_length title_meta_analysis;
         Meta_Keywords := meta_keywords;
         H1_Tags := h1_tags;
         H2_Tags := h2_tags;
         H3_Tags := h3_tags;
         H1_Count := h1_count header_analysis;
         H2_Count := h2_count header_analysis;
         H3_Count := h3_count header_analysis;
         Images_Total := Py.len images;
         Images_Without_Alt := images_without_alt;
         Alt_Texts := alt_texts;
         Breadcrumbs := breadcrumbs;
         Internal_Links := internal_links;
         External_Links := external_links;
         Internal_Links_Count := Py.len internal_links;
         External_Links_Count := Py.len external_links;
         Word_Count := word_count;
         Keyword_Density := keyword_density;
         Top_Keywords := most_common 10 keyword_density;
         Robots := robots_content;
         URL_Depth := url_depth url_analysis;
         URL_Length := url_length url_analysis;
         Title_Meta_Issues := tm_issues title_meta_analysis;
         Header_Issues := hd_issues header_analysis;
         URL_Issues := url_issues url_analysis;
         Content_Issues := cq_issues content_analysis;
         Recommendations :=
           tm_recommendations title_meta_analysis
           ++ hd_recommendations header_analysis
           ++ url_recommendations url_analysis
           ++ cq_recommendations content_analysis;
         Overall_Score :=
           calculate_seo_score title_meta_analysis header_analysis
             url_analysis content_analysis (Py.len internal_links)
             images_without_alt |}.

(** [try: ... except Exception as e: return {"URL": url, "Error": str(e)}]. *)
Definition get_seo_data (w : world) (url : string) : page_record :=
  try_except (a <- audit_page w url ;; Ret (Audited url a))
    (fun e => Failed url (exn_str e)).

(** ** Sitemap discovery *)

Definition sitemap_ns (name : string) : string :=
  ("{http://www.sitemaps.org/schemas/sitemap/0.9}" ++ name)%string.

(** The document behind a sitemap URL: [None] when the content type does
    not mention XML. *)
Definition fetch_sitemap (w : world) (sitemap_url : string)
  : outcome (option element) :=
  response <- requests_get w sitemap_url ;;
  _ <- raise_for_status response ;;
  if Py.contains "xml" (or_empty (content_type response))
  then root <- xml_parser w (body response) ;; Ret (Some root)
  else Ret None.

(** The loop over the [loc] entries of a regular sitemap. *)
Fixpoint collect_locs (locs : list element) (page_urls : list string)
  : outcome (list string) :=
  match locs with
  | [] => Ret page_urls
  | u :: rest =>
      t <- strip_or_raise (text_of u) ;;
      collect_locs rest (page_urls ++ [t])
  end.

(** The loop over the entries of a sitemap index: every [loc] is resolved by
    [recurse], the recursive call of [extract_all_page_urls].  [None] means
    that the recursion ran out of fuel. *)
Fixpoint visit_sitemaps (recurse : string -> option (list string))
  (max_pages : Z) (sitemap_tags : list element) (page_urls : list string)
  : option (list string) :=
  match sitemap_tags with
  | [] => Some (Py.slice_to max_pages page_urls)
  | sitemap :: rest =>
      match find (sitemap_ns "loc") sitemap with
      | None => visit_sitemaps recurse max_pages rest page_urls
      | Some loc =>
          match strip_or_raise (text_of loc) with
          | Raise _ => Some []
          | Ret child =>
              match recurse child with
              | None => None
              | Some found =>
                  visit_sitemaps recurse max_pages rest (page_urls ++ found)
              end
          end
      end
  end.

(** The body of [extract_all_page_urls]: an exception anywhere in it makes
    the call return the empty list. *)
Definition sitemap_level (recurse : string -> option (list string))
  (w : world) (max_pages : Z) (sitemap_url : string) : option (list string) :=
  match fetch_sitemap w sitemap_url with
  | Raise _ => Some []
  | Ret None => Some (Py.slice_to max_pages [])
  | Ret (Some root) =>
      match findall (sitemap_ns "sitemap") root with
      | [] =>
          Some (try_except
                  (page_urls <- collect_locs (findall (sitemap_ns "loc") root) [] ;;
                   Ret (Py.slice_to max_pages page_urls))
                  (fun _ => []))
      | sitemap_tags => visit_sitemaps recurse max_pages sitemap_tags []
      end
  end.

(** [extract_all_page_urls].  The recursion follows the sitemap indexes of
    the site, which may refer to each other; [fuel] bounds its depth, and
    [None] means that the bound was reached. *)
Fixpoint extract_all_page_urls (fuel : nat) (w : world) (max_pages : Z)
  (sitemap_url : string) : option (list string) :=
  match fuel with
  | O => None
  | S fuel' =>
      sitemap_level (extract_all_page_urls fuel' w max_pages) w max_pages
        sitemap_url
  end.

(** ** The table of page records *)

(** [pd.DataFrame(records)]: one row per dictionary and one column per key,
    in the order in which the keys first appear.  A row without a key has
    the missing value [NaN] in that column. *)
Record dataframe := {
  columns : list string;
  rows : list page_record
}.

Definition has_key (cols : list string) (name : string) : bool :=
  List.existsb (String.eqb name) cols.

(** A key becomes a column the first time it is met. *)
Definition append_new (cols : list string) (k : string) : list string :=
  if has_key cols k then cols else cols ++ [k].

Definition add_keys (cols : list string) (r : page_record) : list string :=
  fold_left append_new (record_keys r) cols.

Definition DataFrame (records : list page_record) : dataframe :=
  {| columns := fold_left add_keys records []; rows := records |}.

(** [df.empty]: no row or no column. *)
Definition df_empty (df : dataframe) : bool :=
  match rows df, columns df with
  | [], _ | _, [] => true
  | _, _ => false
  end.

(** [df[mask]] keeps the columns. *)
Definition df_filter (keep : page_record -> bool) (df : dataframe) : dataframe :=
  {| columns := columns df; rows := filter keep (rows df) |}.

(** [df['Error'].isna()] on one row. *)
Definition error_isna (r : page_record) : bool :=
  match r with
  | Audited _ _ => true
  | Failed _ _ => false
  end.

(** [df[name]]: the cells of a column of analysis values, [None] for [NaN];
    a [KeyError] when the table has no such column. *)
Definition column {A : Type} (df : dataframe) (name : string)
  (field : page_audit -> A) : outcome (list (option A)) :=
  if has_key (columns df) name
  then Ret (map (fun r => match r with
                          | Audited _ a => Some (field a)
                          | Failed _ _ => None
                          end) (rows df))
  else Raise (Exn "KeyError" name).

(** The cells that hold a value. *)
Definition present {A : Type} (cells : list (option A)) : list A :=
  flat_map (fun c => match c with Some v => [v] | None => [] end) cells.

(** [series.mean()]: missing values are skipped; the mean of nothing is
    [NaN], written [None]. *)
Definition mean (cells : list (option Z)) : option Q :=
  match present cells with
  | [] => None
  | vs => Some (inject_Z (fold_left Z.add vs 0%Z)
                / inject_Z (Py.len vs))%Q
  end.

Definition count_where {A : Type} (p : option A -> bool)
  (cells : list (option A)) : Z :=
  Py.len (filter p cells).

(** ** The report aggregator *)

Record summary := {
  total_pages : Z;
  average_score : option Q;
  pages_with_issues : Z;
  average_word_count : option Q;
  pages_missing_meta_desc : Z;
  pages_missing_h1 : Z
}.

Record keyword_analysis := {
  top_keywords : list (string * Z);
  total_unique_keywords : Z;
  keyword_opportunities : list string
}.

(** The empty dictionary of the initial report is [None]. *)
Record report := {
  r_summary : option summary;
  r_common_issues : list (string * Z);
  r_keyword_analysis : option keyword_analysis;
  r_recommendations : list string
}.

Definition empty_report : report :=
  {| r_summary := None; r_common_issues := [];
     r_keyword_analysis := None; r_recommendations := [] |}.

(** [series.mean() if name in columns else 0]. *)
Definition mean_or_zero (df : dataframe) (name : string)
  (field : page_audit -> Z) : outcome (option Q) :=
  if has_key (columns df) name
  then cells <- column df name field ;; Ret (mean cells)
  else Ret (Some (inject_Z 0)).

Definition summarize (valid_df : dataframe) : outcome summary :=
  score <- mean_or_zero valid_df "Overall Score" Overall_Score ;;
  tm <- column valid_df "Title Meta Issues" Title_Meta_Issues ;;
  words <- mean_or_zero valid_df "Word Count" Word_Count ;;
  md <- column valid_df "Meta Description" Meta_Description ;;
  h1 <- column valid_df "H1 Count" H1_Count ;;
  Ret {| total_pages := Py.len (rows valid_df);
         average_score := score;
         (* str(cell) != "[]": true of a non-empty list and of NaN *)
         pages_with_issues :=
           count_where (fun c => match c with Some [] => false | _ => true end) tm;
         average_word_count := words;
         pages_missing_meta_desc :=
           count_where (fun c => match c with
                                 | Some s => String.eqb s "N/A"
                                 | None => false
                                 end) md;
         pages_missing_h1 :=
           count_where (fun c => match c with
                                 | Some n => n =? 0
                                 | None => false
                                 end) h1 |}.

(** The issues of one column, when the table has it; cells that are not
    lists are skipped. *)
Definition column_issues (valid_df : dataframe) (name : string)
  (field : page_audit -> list string) : list string :=
  match column valid_df name field with
  | Ret cells => List.concat (present cells)
  | Raise _ => []
  end.

Definition collect_issues (valid_df : dataframe) : list string :=
  column_issues valid_df "Title Meta Issues" Title_Meta_Issues
  ++ column_issues valid_df "Header Issues" Header_Issues
  ++ column_issues valid_df "URL Issues" URL_Issues
  ++ column_issues valid_df "Content Issues" Content_Issues.

(** [all_keywords[keyword] += count] for one pair of a page. *)
Definition tally_step (all_keywords : counter) (kc : string * Z) : counter :=
  counter_add (fst kc) (snd kc) all_keywords.

(** The double loop over the top keywords of the pages. *)
Definition tally_keywords (lists : list (list (string * Z))) : counter :=
  fold_left
    (fun all_keywords keywords => fold_left tally_step keywords all_keywords)
    lists [].

(** [[kw for kw, count in all_keywords.items() if count == 1][:10]]. *)
Definition opportunities (all_keywords : counter) : list string :=
  Py.slice_to 10
    (map fst (filter (fun kc => snd kc =? 1) all_keywords)).

Definition analyze_keywords (valid_df : dataframe) : outcome keyword_analysis :=
  cells <- column valid_df "Top Keywords" Top_Keywords ;;
  let all_keywords := tally_keywords (present cells) in
  Ret {| top_keywords := most_common 20 all_keywords;
         total_unique_keywords := Py.len all_keywords;
         keyword_opportunities := opportunities all_keywords |}.

Definition generate_comprehensive_report (df : dataframe) : outcome report :=
  let report := empty_report in
  if df_empty df then Ret report
  else
    let valid_df :=
      if has_key (columns df) "Error" then df_filter error_isna df else df in
    if df_empty valid_df then Ret report
    else
      s <- summarize valid_df ;;
      let issue_counter := Counter (collect_issues valid_df) in
      k <- analyze_keywords valid_df ;;
      Ret {| r_summary := Some s;
             r_common_issues := most_common 10 issue_counter;
             r_keyword_analysis := Some k;
             r_recommendations := r_recommendations report |}.

(** The valid part of the table: the audited rows, under the columns of the
    whole table. *)
Definition valid_part (records : list page_record) : dataframe :=
  {| columns := columns (DataFrame records);
     rows := filter error_isna records |}.

(** The table has every analysis column. *)
Definition full_columns (df : dataframe) : Prop :=
  forall k, has_key audit_keys k = true -> has_key (columns df) k = true.

(** ** The crawler driver *)

Definition starts_with_scheme (domain : string) : bool :=
  (Py.is_prefix "http://" domain || Py.is_prefix "https://" domain)%bool.

Definition normalize_domain (domain : string) : string :=
  if starts_with_scheme domain then domain else ("https://" ++ domain)%string.

Definition site_root (domain : string) : string :=
  Py.rstrip (Urllib.is_char "/") (normalize_domain domain).

(** The URLs to audit: the sitemap, or the home page when the sitemap gives
    nothing, cut to the page cap once more. *)
Definition discover_urls (fuel : nat) (w : world) (max_pages : Z)
  (domain : string) : option (list string) :=
  let sitemap_url := (site_root domain ++ "/sitemap.xml")%string in
  match extract_all_page_urls fuel w max_pages sitemap_url with
  | None => None
  | Some all_page_urls =>
      let all_page_urls :=
        match all_page_urls with
        | [] => [site_root domain]
        | _ => all_page_urls
        end in
      Some (Py.slice_to max_pages all_page_urls)
  end.

Definition run_enhanced_seo_audit (fuel : nat) (w : world) (domain : string)
  (max_pages : Z) : option (dataframe * outcome report) :=
  match discover_urls fuel w max_pages domain with
  | None => None
  | Some urls =>
      let seo_reports := map (get_seo_data w) urls in
      let df := DataFrame seo_reports in
      Some (df, generate_comprehensive_report df)
  end.

(** ** Sample pages, sites and tables *)

Module Sample.

(** A body of 1500 two-letter words, one per sentence: no keyword is long
    enough to be counted. *)
Definition text_1500 : string := Py.repeat_str "ab. " 1500.

Definition title_47 : string :=
  "Complete guide to technical search optimization".
Definition title_30 : string := "A page title of thirty symbols".
Definition title_60 : string :=
  "Sixty characters is the longest title that raises no issues!".

(** A page without H1 and without meta description, with the given H2
    headers. *)
Definition page (h2 : list string) : soup :=
  {| soup_title := Some (Some title_47);
     soup_meta := fun _ => None;
     soup_h1 := [];
     soup_h2 := h2;
     soup_h3 := [];
     soup_images := [Some "logo"];
     soup_text := text_1500;
     soup_anchors := [];
     soup_breadcrumbs := [] |}.

(** An anchor with the given reference. *)
Definition link (h : string) : anchor :=
  {| href := h; a_text := "read more"; a_title := None |}.


Definition ok_response (content : string) : http_response :=
  {| status_code := 200; error_message := "";
     content_type := Some "application/xml"; body := content |}.

Definition sitemap_index (children : list string) : element :=
  Element (sitemap_ns "sitemapindex") None
    (map (fun u => Element (sitemap_ns "sitemap") None
                     [Element (sitemap_ns "loc") (Some u) []]) children).

Definition urlset (urls : list string) : element :=
  Element (sitemap_ns "urlset") None
    (map (fun u => Element (sitemap_ns "url") None
                     [Element (sitemap_ns "loc") (Some u) []]) urls).

Definition page_url : string := "https://example.com/guide".
Definition index_url : string := "https://example.com/sitemap.xml".
Definition child_1 : string := "https://example.com/sitemap-1.xml".
Definition child_2 : string := "https://example.com/sitemap-2.xml".

(** A site whose sitemap index lists two sitemaps of three pages each;
    every response carries its own URL as content, every page of the site
    parses to [s], references are absolute and resolve to themselves, and
    every bracketed host is accepted. *)
Definition site_xml (content : string) : outcome element :=
  if String.eqb content index_url then Ret (sitemap_index [child_1; child_2])
  else if String.eqb content child_1 then Ret (urlset ["a1"; "a2"; "a3"])
  else if String.eqb content child_2 then Ret (urlset ["b1"; "b2"; "b3"])
  else Raise (Exn "ParseError" "syntax error: line 1, column 0").

Definition site (s : soup) : world :=
  {| requests_get := fun url => Ret (ok_response url);
     html_parser := fun _ => Ret s;
     xml_parser := site_xml;
     resolve_reference := fun _ h => h;
     bracketed_netloc := fun _ => Ret tt |}.

(** A site that cannot be reached. *)
Definition unreachable : world :=
  {| requests_get := fun _ => Raise (Exn "ConnectionError" "connection refused");
     html_parser := fun _ => Ret (page []);
     xml_parser := site_xml;
     resolve_reference := fun _ h => h;
     bracketed_netloc := fun _ => Ret tt |}.

(** An audited page of which only the top keywords matter. *)
Definition keywords_page (top : list (string * Z)) : page_audit :=
  {| Title := "N/A"; Title_Length := 0;
     Meta_Description := "N/A"; Meta_Description_Length := 0;
     Meta_Keywords := "N/A";
     H1_Tags := []; H2_Tags := []; H3_Tags := [];
     H1_Count := 0; H2_Count := 0; H3_Count := 0;
     Images_Total := 0; Images_Without_Alt := 0; Alt_Texts := [];
     Breadcrumbs := []; Internal_Links := []; External_Links := [];
     Internal_Links_Count := 0; External_Links_Count := 0;
     Word_Count := 0; Keyword_Density := top; Top_Keywords := top;
     Robots := "index,follow"; URL_Depth := 0; URL_Length := 0;
     Title_Meta_Issues := []; Header_Issues := []; URL_Issues := [];
     Content_Issues := []; Recommendations := []; Overall_Score := 100 |}.

Definition page_A : page_record := Audited "A" (keywords_page [("seo", 5)]).
Definition page_B : page_record :=
  Audited "B" (keywords_page [("seo", 3); ("widget", 1)]).

End Sample.

(** ** The depth as the specification words it *)




(** ** Keyword opportunities as the specification words them *)

(** The top-keyword lists of the valid pages, in crawl order. *)
Definition top_keyword_lists (records : list page_record)
  : list (list (string * Z)) :=
  flat_map (fun r => match r with
                     | Audited _ a => [Top_Keywords a]
                     | Failed _ _ => []
                     end) records.

(** The count of a keyword summed over all contributions. *)
Fixpoint summed_count (k : string) (pairs : list (string * Z)) : Z :=
  match pairs with
  | [] => 0
  | (k', n) :: rest =>
      (if String.eqb k k' then n else 0) + summed_count k rest
  end.

(** The keywords in the order in which they are first met. *)
Fixpoint encounter_order (keys : list string) : list string :=
  match keys with
  | [] => []
  | k :: rest =>
      k :: filter (fun k' => negb (String.eqb k' k)) (encounter_order rest)
  end.

(** The keywords whose summed count is 1, in encounter order, at most 10. *)
Definition single_occurrence_keywords (lists : list (list (string * Z)))
  : list string :=
  let pairs := List.concat lists in
  firstn 10
    (filter (fun k => summed_count k pairs =? 1)
       (encounter_order (map fst pairs))).

(** ** Failures of a page audit *)

(** The failure that stops the audit of a page before the analysis starts,
    if there is one: the request raises (time-out, refused connection), the
    status is an error status, the parser raises, or the title tag has no
    string to strip. *)
Definition page_failure (w : world) (url : string) : option exn :=
  match requests_get w url with
  | Raise e => Some e
  | Ret response =>
      match raise_for_status response with
      | Raise e => Some e
      | Ret _ =>
          match html_parser w (body response) with
          | Raise e => Some e
          | Ret s =>
              match soup_title s with
              | Some None => Some (attribute_error "strip")
              | _ => None
              end
          end
      end
  end.


(** ** Orders used in the statements *)

(** [x] counts at least as much as [y]. *)
Definition at_least (x y : string * Z) : Prop := snd y <= snd x.

(** ** Anchors that count as links *)


(** ** Helpers for the statements on sitemaps and tables *)

(** The values of a list of optional values, when none is missing. *)
Fixpoint all_some {A : Type} (l : list (option A)) : option (list A) :=
  match l with
  | [] => Some []
  | None :: _ => None
  | Some x :: rest =>
      match all_some rest with
      | Some xs => Some (x :: xs)
      | None => None
      end
  end.

(** The URL a page record was made for. *)
Definition record_url (r : page_record) : string :=
  match r with
  | Audited url _ => url
  | Failed url _ => url
  end.

(** The analysis fields of the audited records, in crawl order. *)
Definition audits (records : list page_record) : list page_audit :=
  flat_map (fun r => match r with
                     | Audited _ a => [a]
                     | Failed _ _ => []
                     end) records.

(** Every issue reported for the audited pages, category by category. *)
Definition all_issues (records : list page_record) : list string :=
  flat_map Title_Meta_Issues (audits records)
  ++ flat_map Header_Issues (audits records)
  ++ flat_map URL_Issues (audits records)
  ++ flat_map Content_Issues (audits records).

(** ** Breadcrumbs *)

(** A value decoded by [json.loads]; an object is a dictionary, written as
    an association list without repeated keys. *)
#[warnings="-register-all"]
Inductive json :=
| JNull
| JBool (b : bool)
| JNumber (q : Q)
| JString (s : string)
| JArray (items : list json)
| JObject (members : list (string * json)).

(** Python truth of a decoded value. *)
Definition json_truthy (v : json) : bool :=
  match v with
  | JNull => false
  | JBool b => b
  | JNumber q => negb (Qeq_bool q (inject_Z 0))
  | JString s => Py.nonempty s
  | JArray [] => false
  | JArray _ => true
  | JObject [] => false
  | JObject _ => true
  end.

(** [d.get(key)]. *)
Fixpoint json_get (key : string) (members : list (string * json))
  : option json :=
  match members with
  | [] => None
  | (k, v) :: rest => if String.eqb key k then Some v else json_get key rest
  end.

(** What [extract_breadcrumbs] reads from the parsed page. *)
Record breadcrumb_sources := {
  (** [soup.select_one(selector)]: no match, or the texts
      [get_text(strip=True)] of the [a] and [span] elements inside the first
      match, in document order *)
  select_one : string -> option (list string);
  (** [json.loads(script.string)] for every script of type
      [application/ld+json], in document order; it raises on a script
      without string and on invalid JSON *)
  ld_json_scripts : list (outcome json)
}.

Definition quote : string := String (ascii_of_nat 34) EmptyString.

Definition breadcrumb_selectors : list string :=
  [("nav[aria-label*=" ++ quote ++ "breadcrumb" ++ quote ++ " i]")%string;
   ".breadcrumb";
   ".breadcrumbs";
   ("[class*=" ++ quote ++ "breadcrumb" ++ quote ++ "]")%string;
   ".elementor-widget-breadcrumbs"].

(** The loop over the selectors: the texts of a matching container replace
    the list, and the loop stops as soon as the list is not empty. *)
Fixpoint select_breadcrumbs (page : breadcrumb_sources)
  (selectors : list string) (breadcrumbs : list string) : list string :=
  match selectors with
  | [] => breadcrumbs
  | selector :: rest =>
      match select_one page selector with
      | Some texts =>
          match filter Py.nonempty texts with
          | [] => select_breadcrumbs page rest []
          | found => found
          end
      | None => select_breadcrumbs page rest breadcrumbs
      end
  end.

(** The loop over the items of a breadcrumb list.  An item that is no
    object makes [item.get] raise: the names appended so far are kept and
    the rest of the script is skipped. *)
Fixpoint append_names (items : list json) (breadcrumbs : list json)
  : list json :=
  match items with
  | [] => breadcrumbs
  | JObject members :: rest =>
      match json_get "name" members with
      | Some name =>
          if json_truthy name then append_names rest (breadcrumbs ++ [name])
          else append_names rest breadcrumbs
      | None => append_names rest breadcrumbs
      end
  | _ :: _ => breadcrumbs
  end.

(** The body of the loop over the scripts, with its [try] and [except].
    When [itemListElement] is no array, either it cannot be iterated or its
    elements are strings, on which [item.get] raises: nothing is appended. *)
Definition script_breadcrumbs (data : outcome json) (breadcrumbs : list json)
  : list json :=
  match data with
  | Ret (JObject members) =>
      match json_get "@type" members with
      | Some (JString t) =>
          if String.eqb t "BreadcrumbList" then
            match json_get "itemListElement" members with
            | Some (JArray items) => append_names items breadcrumbs
            | _ => breadcrumbs
            end
          else breadcrumbs
      | _ => breadcrumbs
      end
  | _ => breadcrumbs
  end.

Definition extract_breadcrumbs (page : breadcrumb_sources) : list json :=
  match select_breadcrumbs page breadcrumb_selectors [] with
  | [] =>
      fold_left (fun breadcrumbs data => script_breadcrumbs data breadcrumbs)
        (ld_json_scripts page) []
  | breadcrumbs => map JString breadcrumbs
  end.

(** ** The keyword density script *)

Module KeywordDensity.

(** [string.punctuation]. *)
Definition is_punctuation (c : ascii) : bool :=
  (Py.in_range 33 47 c || Py.in_range 58 64 c || Py.in_range 91 96 c
   || Py.in_range 123 126 c)%bool.

(** [clean_text]; the tokenizer and the list of stop words come from NLTK
    and are parameters. *)
Definition clean_text (word_tokenize : string -> list string)
  (stop_words : list string) (text : string) : list string :=
  let text := Py.lower text in
  let text := Urllib.remove_chars is_punctuation text in
  let words := word_tokenize text in
  filter (fun word => negb (List.existsb (String.eqb word) stop_words)) words.

(** [{word: (count / total_words) * 100 for word, count in items}]. *)
Fixpoint densities (items : counter) (total_words : Z)
  : outcome (list (string * Q)) :=
  match items with
  | [] => Ret []
  | (word, count) :: rest =>
      share <- divide count total_words ;;
      others <- densities rest total_words ;;
      Ret ((word, (share * inject_Z 100)%Q) :: others)
  end.

Definition keyword_density (word_tokenize : string -> list string)
  (stop_words : list string) (text : string) : outcome (list (string * Q)) :=
  let words := clean_text word_tokenize stop_words text in
  let word_counts := Counter words in
  let total_words := Py.len words in
  densities word_counts total_words.

End KeywordDensity.

(** * Properties *)

(** ** The score calculator *)

(** C1: the score is 100 minus 10 per title/meta issue, 10 per header issue,
    5 per URL issue, 10 per content issue and min(2 x images without alt,
    20), plus 5 when there are at least 3 internal links, clamped to
    [0, 100]; in particular it always lies in [0, 100]. *)
Theorem calculate_seo_score_formula :
  forall (title_meta : title_meta_result) (header : header_result)
         (url : url_result) (content : content_result)
         (internal_links images_without_alt : Z),
    calculate_seo_score title_meta header url content internal_links
      images_without_alt
    = Z.max 0
        (Z.min 100
           (100
            - 10 * Py.len (tm_issues title_meta)
            - 10 * Py.len (hd_issues header)
            - 5 * Py.len (url_issues url)
            - 10 * Py.len (cq_issues content)
            - Z.min (2 * images_without_alt) 20
            + (if 3 <=? internal_links then 5 else 0)))
    /\ 0 <= calculate_seo_score title_meta header url content internal_links
              images_without_alt <= 100.
Proof.
  intros. unfold calculate_seo_score. split.
  - f_equal. f_equal. destruct (3 <=? internal_links); lia.
  - lia.
Qed.

(** ** The title and meta description analyzer *)

Lemma meta_checks_no_title_issue :
  forall meta_desc x,
    In x (fst (meta_checks meta_desc)) ->
    x <> "Title too short" /\ x <> "Title too long".
Proof.
  intros meta_desc x. unfold meta_checks.
  destruct (is_missing meta_desc); [|destruct (_ <? 120); [|destruct (160 <? _)]];
    cbn [fst In]; intros Hx; intuition (subst; discriminate).
Qed.

Lemma in_title_then_meta :
  forall (x : string) (ti mi : list string),
    (forall y, In y mi -> y <> x) ->
    In x (ti ++ mi) <-> In x ti.
Proof.
  intros x ti mi Hmi. rewrite in_app_iff. split; [|tauto].
  intros [H|H]; [exact H|]. exfalso. exact (Hmi x H eq_refl).
Qed.

Lemma tm_issues_split :
  forall title meta_desc url,
    tm_issues (analyze_title_meta title meta_desc url)
    = fst (title_checks title) ++ fst (meta_checks meta_desc).
Proof.
  intros. unfold analyze_title_meta.
  destruct (title_checks title), (meta_checks meta_desc). reflexivity.
Qed.

(** C3: for a title that is present, "Title too short" is reported exactly
    when its length is below 30 and "Title too long" exactly when its length
    is above 60; lengths 30 and 60 report neither. *)
Theorem title_length_thresholds :
  forall title meta_desc url : string,
    is_missing title = false ->
    let issues := tm_issues (analyze_title_meta title meta_desc url) in
    (In "Title too short" issues <-> Py.slen title < 30)
    /\ (In "Title too long" issues <-> 60 < Py.slen title)
    /\ (Py.slen title = 30 \/ Py.slen title = 60 ->
        ~ In "Title too short" issues /\ ~ In "Title too long" issues).
Proof.
  intros title meta_desc url Hpresent issues. subst issues.
  rewrite tm_issues_split.
  assert (Hshort : In "Title too short" (fst (title_checks title))
                   <-> Py.slen title < 30).
  { unfold title_checks. rewrite Hpresent.
    destruct (Z.ltb_spec (Py.slen title) 30);
      [|destruct (Z.ltb_spec 60 (Py.slen title))];
      destruct (negb _); cbn [fst In app];
      intuition (try discriminate; try lia). }
  assert (Hlong : In "Title too long" (fst (title_checks title))
                  <-> 60 < Py.slen title).
  { unfold title_checks. rewrite Hpresent.
    destruct (Z.ltb_spec (Py.slen title) 30);
      [|destruct (Z.ltb_spec 60 (Py.slen title))];
      destruct (negb _); cbn [fst In app];
      intuition (try discriminate; try lia). }
  rewrite !in_title_then_meta
    by (intros y Hy; apply (meta_checks_no_title_issue meta_desc y Hy)).
  rewrite Hshort, Hlong. repeat split; intros; lia.
Qed.

Lemma title_length_thresholds_witness :
  let issues := tm_issues (analyze_title_meta Sample.title_30 "N/A" Sample.page_url) in
  Py.slen Sample.title_30 = 30
  /\ ~ In "Title too short" issues /\ ~ In "Title too long" issues.
Proof.
  split; [reflexivity|].
  apply (title_length_thresholds Sample.title_30 "N/A" Sample.page_url);
    [reflexivity | left; reflexivity].
Defined.

(** A title that is empty or the marker ["N/A"] counts as missing: the
    length checks are skipped. *)
Lemma missing_title_only_issue :
  forall title, is_missing title = true ->
    title_checks title = (["Missing title tag"], []).
Proof. intros title H. unfold title_checks. rewrite H. reflexivity. Qed.

(** ** The content quality analyzer *)

Lemma split_runs_length :
  forall sep s cur in_match,
    (1 <= List.length (Re.split_runs sep cur in_match s))%nat.
Proof.
  intros sep s. induction s as [|c s IH]; intros cur in_match; cbn.
  - lia.
  - destruct (sep c); [destruct in_match|]; cbn; try apply IH; lia.
Qed.

Lemma sentence_count_ge_1 :
  forall text_content, 1 <= sentence_count text_content.
Proof.
  intros text_content. unfold sentence_count, Py.len, Re.split_sentences.
  pose proof (split_runs_length Re.sentence_end text_content "" false). lia.
Qed.

(** C9: splitting any text, the empty one included, on runs of [. ! ?]
    gives at least one segment: the sentence count is at least 1, the guard
    [sentences > 0] holds, and the division by the sentence count is
    defined. *)
Theorem sentence_count_positive :
  forall text_content : string,
    1 <= sentence_count text_content
    /\ (0 <? sentence_count text_content) = true
    /\ forall word_count : Z,
         divide word_count (sentence_count text_content)
         = Ret (inject_Z word_count / inject_Z (sentence_count text_content))%Q.
Proof.
  intros text_content.
  pose proof (sentence_count_ge_1 text_content) as H.
  split; [exact H|]. split; [apply Z.ltb_lt; lia|].
  intros word_count. unfold divide.
  destruct (Z.eqb_spec (sentence_count text_content) 0); [lia|reflexivity].
Qed.

(** ** The keyword extractor *)

Lemma alpha_not_digit :
  forall c, Py.is_alpha c = true -> Py.is_digit c = false.
Proof.
  intros c. unfold Py.is_alpha, Py.is_upper, Py.is_lower, Py.is_digit, Py.in_range.
  generalize (Py.code c). intros n H.
  apply Bool.orb_true_iff in H.
  assert (Hn : (65 <= n <= 122)%nat).
  { destruct H as [H|H]; apply Bool.andb_true_iff in H; destruct H as [H1 H2];
      apply Nat.leb_le in H1; apply Nat.leb_le in H2; lia. }
  assert (H1 : Nat.leb n 57 = false) by (apply Nat.leb_gt; lia).
  assert (H2 : Nat.leb 178 n = false) by (apply Nat.leb_gt; lia).
  assert (H3 : Nat.eqb n 185 = false) by (apply Nat.eqb_neq; lia).
  rewrite H1, H2, H3, Bool.andb_false_r. reflexivity.
Qed.

Lemma letters_not_digits :
  forall w, Py.all_chars Py.is_alpha w = true -> Py.isdigit w = false.
Proof.
  intros [|c w]; [reflexivity|]. cbn. intros H.
  apply Bool.andb_true_iff in H. destruct H as [Hc _].
  rewrite (alpha_not_digit c Hc). reflexivity.
Qed.

Lemma split_at_letters :
  forall k s, (k <= Re.letters_run s)%nat ->
    Py.all_chars Py.is_alpha (fst (Re.split_at k s)) = true.
Proof.
  induction k as [|k IH]; intros s Hk.
  - destruct s; reflexivity.
  - destruct s as [|c s]; [reflexivity|]. cbn in Hk |- *.
    destruct (Py.is_alpha c) eqn:Hc; [|lia].
    specialize (IH s ltac:(lia)).
    destruct (Re.split_at k s) as [w r]. cbn in IH |- *.
    rewrite Hc, IH. reflexivity.
Qed.

Lemma backtrack_unfold :
  forall lo must_advance prev s k,
    Re.backtrack lo must_advance prev s k
    = let '(w, r) := Re.split_at k s in
      if (N.leb lo (N.of_nat k) && Re.boundary (Re.last_char prev w) r
          && (negb must_advance || Nat.ltb 0 k))%bool
      then Some (w, r)
      else match k with
           | O => None
           | S k' => Re.backtrack lo must_advance prev s k'
           end.
Proof. intros. destruct k; reflexivity. Qed.

Lemma backtrack_letters :
  forall lo must_advance prev s k w r,
    (k <= Re.letters_run s)%nat ->
    Re.backtrack lo must_advance prev s k = Some (w, r) ->
    Py.all_chars Py.is_alpha w = true.
Proof.
  intros lo must_advance prev s k. induction k as [|k IH]; intros w r Hk;
    rewrite backtrack_unfold;
    pose proof (split_at_letters _ s Hk) as Hw;
    destruct (Re.split_at _ s) as [w' r']; cbn [fst] in Hw;
    destruct (_ && _)%bool; intros H; try discriminate;
    try (inversion H; subst; exact Hw).
  apply (IH w r); [lia|exact H].
Qed.

Lemma match_here_letters :
  forall lo hi must_advance prev s w r,
    Re.match_here lo hi must_advance prev s = Some (w, r) ->
    Py.all_chars Py.is_alpha w = true.
Proof.
  intros lo hi must_advance prev s w r. unfold Re.match_here.
  destruct (Re.boundary prev s); [|discriminate].
  apply backtrack_letters. lia.
Qed.

Lemma findall_from_letters :
  forall fuel lo hi must_advance prev s,
    Forall (fun w => Py.all_chars Py.is_alpha w = true)
      (Re.findall_from fuel lo hi must_advance prev s).
Proof.
  induction fuel as [|fuel IH]; intros lo hi must_advance prev s; cbn.
  - constructor.
  - destruct (Re.match_here lo hi must_advance prev s) as [[w r]|] eqn:Hm.
    + constructor; [|apply IH].
      exact (match_here_letters _ _ _ _ _ _ _ Hm).
    + destruct s; [constructor|apply IH].
Qed.

Lemma match_literal_starts_with_letter :
  forall lit prev s w r,
    Re.match_literal_here lit prev s = Some (w, r) -> Py.isdigit w = false.
Proof.
  intros lit prev [|c rest] w r; cbn [Re.match_literal_here]; [discriminate|].
  destruct (Re.boundary prev (String c rest)); cbn [andb]; [|discriminate].
  destruct (Py.is_alpha c) eqn:Hc; [|discriminate].
  destruct (Re.drop_prefix lit rest) as [r'|]; [|discriminate].
  destruct (Re.boundary _ r'); [|discriminate].
  intros H. inversion H. cbn. rewrite (alpha_not_digit c Hc). reflexivity.
Qed.

Lemma findall_literal_from_not_numeric :
  forall fuel lit prev s,
    Forall (fun w => Py.isdigit w = false)
      (Re.findall_literal_from fuel lit prev s).
Proof.
  induction fuel as [|fuel IH]; intros lit prev s; cbn [Re.findall_literal_from].
  - constructor.
  - destruct (Re.match_literal_here lit prev s) as [[w r]|] eqn:Hm.
    + constructor; [|apply IH].
      exact (match_literal_starts_with_letter _ _ _ _ _ Hm).
    + destruct s; [constructor|apply IH].
Qed.

(** Every token that the pattern finds starts with a letter or is empty,
    so none of them is a number. *)
Lemma found_words_not_numeric :
  forall text min_length max_length words w,
    find_words text min_length max_length = Ret words ->
    In w words -> Py.isdigit w = false.
Proof.
  intros text min_length max_length words w. unfold find_words.
  destruct (_ || _)%bool.
  - intros H Hw. inversion H. subst words.
    pose proof (findall_literal_from_not_numeric (S (String.length text))
                  (Re.braces min_length max_length) None text) as Hall.
    rewrite Forall_forall in Hall. exact (Hall w Hw).
  - destruct (_ || _)%bool; [discriminate|].
    destruct (max_length <? min_length); [discriminate|].
    intros H Hw. inversion H. subst words. apply letters_not_digits.
    pose proof (findall_from_letters (2 * String.length text + 2)
                  (Z.to_N min_length) (Z.to_N max_length) false None text)
      as Hall.
    rewrite Forall_forall in Hall. exact (Hall w Hw).
Qed.

(** C10: the test that drops numeric tokens never drops anything: the
    extractor with it and the extractor without it return the same counts
    for every text and every pair of length bounds. *)
Theorem digit_filter_is_vacuous :
  forall (text : string) (min_length max_length : Z),
    get_keywords_bounds text min_length max_length
    = get_keywords_no_digit_filter text min_length max_length.
Proof.
  intros text min_length max_length.
  unfold get_keywords_bounds, get_keywords_no_digit_filter.
  destruct (find_words (Py.lower text) min_length max_length) as [words|e]
    eqn:Hwords; [|reflexivity].
  cbn [bind]. do 2 f_equal. apply filter_ext_in.
  intros w Hw. rewrite (found_words_not_numeric _ _ _ _ _ Hwords Hw).
  cbn. apply Bool.andb_true_r.
Qed.

(** ** The URL structure analyzer *)


Lemma in_note :
  forall (x : string) cond issue rec f,
    In x (fst (note cond [issue] rec f))
    <-> In x (fst f) \/ (cond = true /\ x = issue).
Proof.
  intros x cond issue rec [i r]. unfold note. destruct cond; cbn [fst].
  - rewrite in_app_iff. cbn. intuition congruence.
  - intuition congruence.
Qed.

Lemma filter_length_le :
  forall (A : Type) (p : A -> bool) (l : list A),
    (List.length (filter p l) <= List.length l)%nat.
Proof.
  intros A p l. induction l as [|x l IH]; cbn; [lia|].
  destruct (p x); cbn; lia.
Qed.





(** ** The table of page records *)

Lemma has_key_app :
  forall cols k k', has_key (cols ++ [k']) k = (has_key cols k || String.eqb k k')%bool.
Proof.
  intros. unfold has_key. rewrite existsb_app. cbn.
  rewrite Bool.orb_false_r. reflexivity.
Qed.

Lemma has_key_add :
  forall keys cols k,
    has_key (fold_left append_new keys cols) k
    = (has_key cols k || has_key keys k)%bool.
Proof.
  induction keys as [|k' keys IH]; intros cols k; cbn [fold_left].
  - cbn. rewrite Bool.orb_false_r. reflexivity.
  - rewrite IH. cbn [has_key existsb]. fold (has_key keys k).
    unfold append_new. destruct (has_key cols k') eqn:Hk'.
    + destruct (String.eqb_spec k k') as [->|_].
      * rewrite Hk'. reflexivity.
      * reflexivity.
    + rewrite has_key_app. rewrite Bool.orb_assoc. reflexivity.
Qed.

Lemma has_key_columns :
  forall records cols k,
    has_key (fold_left add_keys records cols) k
    = (has_key cols k
       || existsb (fun r => has_key (record_keys r) k) records)%bool.
Proof.
  induction records as [|r records IH]; intros cols k; cbn [fold_left existsb].
  - rewrite Bool.orb_false_r. reflexivity.
  - rewrite IH. unfold add_keys. rewrite has_key_add.
    rewrite Bool.orb_assoc. reflexivity.
Qed.

Lemma existsb_pointwise :
  forall (A : Type) (p q : A -> bool) (l : list A),
    (forall x, p x = q x) -> existsb p l = existsb q l.
Proof.
  intros A p q l H. induction l as [|x l IH]; cbn; [reflexivity|].
  rewrite H, IH. reflexivity.
Qed.

(** The table has the column ["Error"] exactly when some page failed. *)
Lemma error_column :
  forall records,
    has_key (columns (DataFrame records)) "Error"
    = existsb (fun r => negb (error_isna r)) records.
Proof.
  intros records. unfold DataFrame. cbn [columns].
  rewrite has_key_columns. cbn [has_key existsb orb].
  apply existsb_pointwise. intros [url a|url e]; reflexivity.
Qed.

(** The table has every analysis column as soon as one page was audited. *)
Lemma audit_columns :
  forall records k,
    existsb error_isna records = true ->
    has_key audit_keys k = true ->
    has_key (columns (DataFrame records)) k = true.
Proof.
  intros records k Hex Hk. unfold DataFrame. cbn [columns].
  rewrite has_key_columns. cbn [has_key existsb orb].
  apply existsb_exists in Hex. destruct Hex as [r [Hin Hr]].
  apply existsb_exists. exists r. split; [exact Hin|].
  destruct r; [exact Hk|discriminate].
Qed.

Lemma columns_nonempty :
  forall records, records <> [] -> columns (DataFrame records) <> [].
Proof.
  intros [|r records] Hne; [congruence|]. intros Hcols.
  assert (H : has_key (columns (DataFrame (r :: records))) "URL" = true).
  { unfold DataFrame. cbn [columns]. rewrite has_key_columns.
    cbn [existsb]. destruct r; reflexivity. }
  rewrite Hcols in H. discriminate.
Qed.

Lemma filter_all_valid :
  forall records,
    existsb (fun r => negb (error_isna r)) records = false ->
    filter error_isna records = records.
Proof.
  induction records as [|r records IH]; cbn; [reflexivity|].
  intros H. apply Bool.orb_false_iff in H. destruct H as [Hr Hrest].
  apply Bool.negb_false_iff in Hr. rewrite Hr, (IH Hrest). reflexivity.
Qed.

Lemma report_of_valid_part :
  forall records,
    generate_comprehensive_report (DataFrame records)
    = match filter error_isna records with
      | [] => Ret empty_report
      | _ =>
          s <- summarize (valid_part records) ;;
          k <- analyze_keywords (valid_part records) ;;
          Ret {| r_summary := Some s;
                 r_common_issues :=
                   most_common 10 (Counter (collect_issues (valid_part records)));
                 r_keyword_analysis := Some k;
                 r_recommendations := [] |}
      end.
Proof.
  intros records. unfold generate_comprehensive_report.
  destruct records as [|r0 records0] eqn:Hrec; [reflexivity|].
  rewrite <- Hrec.
  assert (Hne : records <> []) by (subst; discriminate).
  pose proof (columns_nonempty records Hne) as Hcols.
  assert (Hempty : df_empty (DataFrame records) = false).
  { unfold df_empty. cbn [rows DataFrame].
    destruct records; [congruence|].
    destruct (columns (DataFrame (p :: records))); [congruence|reflexivity]. }
  rewrite Hempty.
  assert (Hvalid : (if has_key (columns (DataFrame records)) "Error"
                    then df_filter error_isna (DataFrame records)
                    else DataFrame records) = valid_part records).
  { rewrite error_column.
    destruct (existsb _ records) eqn:Hex; [reflexivity|].
    unfold valid_part. rewrite (filter_all_valid records Hex). reflexivity. }
  rewrite Hvalid.
  unfold df_empty at 1. cbn [rows columns valid_part].
  destruct (filter error_isna records) eqn:Hf; [reflexivity|].
  destruct (columns (DataFrame records)); [congruence|reflexivity].
Qed.

(** ** The report aggregator *)

Lemma valid_part_full :
  forall records,
    filter error_isna records <> [] -> full_columns (valid_part records).
Proof.
  intros records Hne k Hk. unfold valid_part. cbn [columns].
  apply audit_columns; [|exact Hk].
  destruct (filter error_isna records) as [|r rs] eqn:Hf; [congruence|].
  assert (Hin : In r (filter error_isna records)) by (rewrite Hf; left; reflexivity).
  apply filter_In in Hin. apply existsb_exists. exists r. exact Hin.
Qed.

Ltac known_columns H :=
  unfold summarize, mean_or_zero, collect_issues, column_issues,
    analyze_keywords, column;
  rewrite ?(H "Overall Score" eq_refl), ?(H "Title Meta Issues" eq_refl),
    ?(H "Word Count" eq_refl), ?(H "Meta Description" eq_refl),
    ?(H "H1 Count" eq_refl), ?(H "Header Issues" eq_refl),
    ?(H "URL Issues" eq_refl), ?(H "Content Issues" eq_refl),
    ?(H "Top Keywords" eq_refl).

(** With all analysis columns in place, the aggregates read the rows only. *)
Lemma aggregates_read_rows :
  forall d1 d2,
    full_columns d1 -> full_columns d2 -> rows d1 = rows d2 ->
    summarize d1 = summarize d2
    /\ collect_issues d1 = collect_issues d2
    /\ analyze_keywords d1 = analyze_keywords d2.
Proof.
  intros d1 d2 H1 H2 Hrows. repeat split.
  - known_columns H1. known_columns H2. rewrite Hrows. reflexivity.
  - known_columns H1. known_columns H2. rewrite Hrows. reflexivity.
  - known_columns H1. known_columns H2. rewrite Hrows. reflexivity.
Qed.

Lemma aggregates_return :
  forall df, full_columns df ->
    (exists s, summarize df = Ret s) /\ (exists k, analyze_keywords df = Ret k).
Proof.
  intros df H. split; known_columns H; cbn [bind]; eexists; reflexivity.
Qed.

Lemma filter_twice :
  forall (A : Type) (p : A -> bool) (l : list A),
    filter p (filter p l) = filter p l.
Proof.
  intros A p l. induction l as [|x l IH]; cbn; [reflexivity|].
  destruct (p x) eqn:Hx; cbn; rewrite ?Hx, IH; reflexivity.
Qed.

(** C8: when every page record carries an error, or there is no record at
    all, the report is the empty one (empty summary, no common issue, empty
    keyword analysis) and nothing is raised; in any table the failed records
    contribute nothing: the report is the report of the audited records
    alone, and it is always returned. *)
Theorem failed_records_leave_report_empty :
  forall records : list page_record,
    (forallb (fun r => negb (error_isna r)) records = true ->
     generate_comprehensive_report (DataFrame records) = Ret empty_report)
    /\ generate_comprehensive_report (DataFrame records)
       = generate_comprehensive_report (DataFrame (filter error_isna records))
    /\ exists r, generate_comprehensive_report (DataFrame records) = Ret r.
Proof.
  intros records. split; [|split].
  - intros Hall. rewrite report_of_valid_part.
    assert (Hf : filter error_isna records = []).
    { induction records as [|r records IH]; [reflexivity|].
      cbn in Hall |- *. apply Bool.andb_true_iff in Hall.
      destruct Hall as [Hr Hrest]. apply Bool.negb_true_iff in Hr.
      rewrite Hr. exact (IH Hrest). }
    rewrite Hf. reflexivity.
  - rewrite !report_of_valid_part, filter_twice.
    destruct (filter error_isna records) as [|r rs] eqn:Hf; [reflexivity|].
    assert (Hne : filter error_isna records <> []) by (rewrite Hf; discriminate).
    assert (Hne' : filter error_isna (filter error_isna records) <> [])
      by (rewrite filter_twice; exact Hne).
    destruct (aggregates_read_rows (valid_part records)
                (valid_part (filter error_isna records))
                (valid_part_full _ Hne) (valid_part_full _ Hne'))
      as [Hs [Hi Hk]].
    { cbn [rows valid_part]. rewrite filter_twice. reflexivity. }
    rewrite <- Hf, Hs, Hi, Hk. reflexivity.
  - rewrite report_of_valid_part.
    destruct (filter error_isna records) as [|r rs] eqn:Hf;
      [eexists; reflexivity|].
    assert (Hne : filter error_isna records <> []) by (rewrite Hf; discriminate).
    destruct (aggregates_return _ (valid_part_full _ Hne)) as [[s Hs] [k Hk]].
    rewrite Hs, Hk. cbn [bind]. eexists. reflexivity.
Qed.

Lemma failed_records_leave_report_empty_witness :
  generate_comprehensive_report
    (DataFrame [Failed "https://example.com/a" "timed out";
                Failed "https://example.com/b" "404 Client Error"])
  = Ret empty_report.
Proof.
  apply (proj1 (failed_records_leave_report_empty
                  [Failed "https://example.com/a" "timed out";
                   Failed "https://example.com/b" "404 Client Error"])).
  reflexivity.
Defined.

(** ** Keyword opportunities *)

Lemma tally_concat :
  forall lists acc,
    fold_left
      (fun all_keywords keywords => fold_left tally_step keywords all_keywords)
      lists acc
    = fold_left tally_step (List.concat lists) acc.
Proof.
  induction lists as [|l lists IH]; intros acc; cbn; [reflexivity|].
  rewrite fold_left_app. apply IH.
Qed.

Lemma counter_add_keys :
  forall k n c, map fst (counter_add k n c) = append_new (map fst c) k.
Proof.
  intros k n c. unfold append_new.
  induction c as [|[k' v] c IH]; cbn; [reflexivity|].
  destruct (String.eqb k k'); cbn; [reflexivity|].
  rewrite IH. fold (has_key (map fst c) k).
  destruct (has_key (map fst c) k); reflexivity.
Qed.

Lemma tally_keys :
  forall pairs acc,
    map fst (fold_left tally_step pairs acc)
    = fold_left append_new (map fst pairs) (map fst acc).
Proof.
  induction pairs as [|kc pairs IH]; intros acc; cbn [fold_left map];
    [reflexivity|].
  rewrite IH. f_equal. unfold tally_step. apply counter_add_keys.
Qed.

Lemma filter_filter :
  forall (A : Type) (p q : A -> bool) (l : list A),
    filter p (filter q l) = filter (fun x => (q x && p x)%bool) l.
Proof.
  intros A p q l. induction l as [|x l IH]; cbn; [reflexivity|].
  destruct (q x); cbn; [destruct (p x)|]; rewrite IH; reflexivity.
Qed.

Lemma append_new_encounter_order :
  forall l cs,
    fold_left append_new l cs
    = cs ++ filter (fun k => negb (has_key cs k)) (encounter_order l).
Proof.
  induction l as [|k l IH]; intros cs; cbn [fold_left encounter_order filter].
  - rewrite app_nil_r. reflexivity.
  - rewrite IH. unfold append_new.
    destruct (has_key cs k) eqn:Hk; cbn [negb]; rewrite filter_filter.
    + f_equal. apply filter_ext. intros x.
      destruct (String.eqb_spec x k) as [->|_]; cbn; [rewrite Hk|]; reflexivity.
    + rewrite <- app_assoc. cbn [app]. do 2 f_equal.
      apply filter_ext. intros x. rewrite has_key_app.
      rewrite Bool.negb_orb. apply Bool.andb_comm.
Qed.

Lemma encounter_order_NoDup :
  forall l, NoDup (encounter_order l).
Proof.
  induction l as [|k l IH]; cbn; constructor.
  - intros Hin. apply filter_In in Hin. destruct Hin as [_ Hk].
    rewrite String.eqb_refl in Hk. discriminate.
  - apply NoDup_filter. exact IH.
Qed.

Lemma counter_add_get :
  forall k k' n c,
    counter_get k (counter_add k' n c)
    = counter_get k c + (if String.eqb k k' then n else 0).
Proof.
  intros k k' n c. induction c as [|[k0 v] c IH]; cbn; [lia|].
  destruct (String.eqb_spec k' k0) as [->|Hne]; cbn.
  - destruct (String.eqb k k0); lia.
  - destruct (String.eqb_spec k k0) as [->|_].
    + destruct (String.eqb_spec k0 k'); [congruence|lia].
    + exact IH.
Qed.

Lemma tally_get :
  forall k pairs acc,
    counter_get k (fold_left tally_step pairs acc)
    = counter_get k acc + summed_count k pairs.
Proof.
  intros k. induction pairs as [|[k' n] pairs IH]; intros acc;
    cbn [fold_left summed_count]; [lia|].
  rewrite IH. unfold tally_step. cbn [fst snd]. rewrite counter_add_get. lia.
Qed.

Lemma entries_of_distinct_keys :
  forall (p : Z -> bool) (c : counter),
    NoDup (map fst c) ->
    map fst (filter (fun kc => p (snd kc)) c)
    = filter (fun k => p (counter_get k c)) (map fst c).
Proof.
  intros p c. induction c as [|[k v] c IH]; cbn; [reflexivity|].
  intros Hnd. inversion Hnd as [|? ? Hk Hc]; subst.
  rewrite String.eqb_refl.
  assert (Htail : filter (fun k0 => p (if String.eqb k0 k then v
                                       else counter_get k0 c)) (map fst c)
                  = filter (fun k0 => p (counter_get k0 c)) (map fst c)).
  { apply filter_ext_in. intros x Hx.
    destruct (String.eqb_spec x k) as [->|_]; [contradiction|reflexivity]. }
  rewrite Htail, <- (IH Hc). destruct (p v); reflexivity.
Qed.

(** The aggregator's list is the list of the specification. *)
Lemma opportunities_spec :
  forall lists,
    opportunities (tally_keywords lists) = single_occurrence_keywords lists.
Proof.
  intros lists. unfold opportunities, tally_keywords, single_occurrence_keywords.
  change (Py.slice_to 10) with (@firstn string 10). f_equal.
  rewrite tally_concat.
  assert (Hkeys : map fst (fold_left tally_step (List.concat lists) [])
                  = encounter_order (map fst (List.concat lists))).
  { rewrite tally_keys, append_new_encounter_order. cbn [map app].
    rewrite <- (filter_ext (fun _ => true)) by reflexivity.
    induction (encounter_order _) as [|x l IH]; cbn; [|rewrite IH]; reflexivity. }
  rewrite (entries_of_distinct_keys (fun v => v =? 1)).
  - rewrite Hkeys. apply filter_ext. intros k. rewrite tally_get. reflexivity.
  - rewrite Hkeys. apply encounter_order_NoDup.
Qed.

Lemma present_top_keywords :
  forall records,
    present (map (fun r => match r with
                           | Audited _ a => Some (Top_Keywords a)
                           | Failed _ _ => None
                           end) (filter error_isna records))
    = top_keyword_lists records.
Proof.
  induction records as [|[url a|url e] records IH]; cbn; [reflexivity| |exact IH].
  unfold present in IH |- *. cbn. rewrite IH. reflexivity.
Qed.

(** C5: when at least one page was audited, the report is returned and its
    keyword opportunities are the keywords whose count, summed over the
    top-keyword lists of the valid pages, is 1, in encounter order and at
    most 10 of them.  With page A contributing seo:5 and page B contributing
    seo:3 and widget:1, the opportunities are widget alone. *)
Theorem keyword_opportunities_are_single_occurrences :
  forall records : list page_record,
    (existsb error_isna records = true ->
     exists r k,
       generate_comprehensive_report (DataFrame records) = Ret r
       /\ r_keyword_analysis r = Some k
       /\ keyword_opportunities k
          = single_occurrence_keywords (top_keyword_lists records))
    /\ (exists r k,
          generate_comprehensive_report (DataFrame [Sample.page_A; Sample.page_B])
          = Ret r
          /\ r_keyword_analysis r = Some k
          /\ keyword_opportunities k = ["widget"]).
Proof.
  intros records. split.
  - intros Hex. rewrite report_of_valid_part.
    assert (Hne : filter error_isna records <> []).
    { apply existsb_exists in Hex. destruct Hex as [r [Hin Hr]].
      intros Hf. assert (Hin' : In r (filter error_isna records))
        by (apply filter_In; split; assumption).
      rewrite Hf in Hin'. exact Hin'. }
    pose proof (valid_part_full records Hne) as Hfull.
    destruct (aggregates_return _ Hfull) as [[s Hs] _].
    destruct (filter error_isna records) as [|r0 rs] eqn:Hf; [congruence|].
    rewrite Hs. cbn [bind].
    unfold analyze_keywords, column.
    rewrite (Hfull "Top Keywords" eq_refl). cbn [bind rows valid_part].
    do 2 eexists. split; [reflexivity|]. split; [reflexivity|].
    cbn [keyword_opportunities]. rewrite present_top_keywords.
    apply opportunities_spec.
  - do 2 eexists. split; [vm_compute; reflexivity|].
    split; reflexivity.
Qed.

Lemma keyword_opportunities_are_single_occurrences_witness :
  exists r k,
    generate_comprehensive_report (DataFrame [Sample.page_A; Sample.page_B]) = Ret r
    /\ r_keyword_analysis r = Some k
    /\ keyword_opportunities k
       = single_occurrence_keywords
           (top_keyword_lists [Sample.page_A; Sample.page_B]).
Proof.
  apply (proj1 (keyword_opportunities_are_single_occurrences
                  [Sample.page_A; Sample.page_B])).
  reflexivity.
Defined.

(** ** The page auditor *)

Lemma page_failure_raises :
  forall w url e, page_failure w url = Some e -> audit_page w url = Raise e.
Proof.
  intros w url e. unfold page_failure, audit_page.
  destruct (requests_get w url) as [response|e0]; cbn [bind];
    [|intros H; inversion H; reflexivity].
  destruct (raise_for_status response) as [[]|e0]; cbn [bind];
    [|intros H; inversion H; reflexivity].
  destruct (html_parser w (body response)) as [s|e0]; cbn [bind];
    [|intros H; inversion H; reflexivity].
  destruct (soup_title s) as [[t|]|]; cbn [strip_or_raise bind];
    intros H; inversion H; reflexivity.
Qed.

(** C7: whatever fails during the audit of a page (the request, the status
    check, the parser, or any later step that raises), [get_seo_data]
    returns the record made of the URL and the text of the error, with no
    analysis field; being a plain record, the result never carries an
    exception to the caller. *)
Theorem get_seo_data_contains_failures :
  forall (w : world) (url : string) (e : exn),
    page_failure w url = Some e \/ audit_page w url = Raise e ->
    get_seo_data w url = Failed url (exn_str e)
    /\ record_keys (get_seo_data w url) = ["URL"; "Error"].
Proof.
  intros w url e H.
  assert (Hraise : audit_page w url = Raise e).
  { destruct H as [H|H]; [apply page_failure_raises|]; exact H. }
  assert (Hres : get_seo_data w url = Failed url (exn_str e)).
  { unfold get_seo_data. rewrite Hraise. reflexivity. }
  rewrite Hres. split; reflexivity.
Qed.

Lemma get_seo_data_contains_failures_witness :
  get_seo_data Sample.unreachable Sample.page_url
  = Failed Sample.page_url "connection refused".
Proof.
  apply (get_seo_data_contains_failures Sample.unreachable Sample.page_url
           (Exn "ConnectionError" "connection refused")).
  left. reflexivity.
Defined.

(** In every case the auditor returns a record for the URL it was given. *)
Lemma get_seo_data_total :
  forall w url,
    match audit_page w url with
    | Ret a => get_seo_data w url = Audited url a
    | Raise e => get_seo_data w url = Failed url (exn_str e)
    end.
Proof.
  intros w url. unfold get_seo_data.
  destruct (audit_page w url); reflexivity.
Qed.

(** ** Sitemap discovery *)

Lemma slice_to_length :
  forall (A : Type) (n : Z) (l : list A), 0 <= n -> Py.len (Py.slice_to n l) <= n.
Proof.
  intros A n l Hn. unfold Py.slice_to, Py.len.
  destruct (Z.leb_spec 0 n); [|lia].
  rewrite length_firstn. lia.
Qed.

Lemma visit_sitemaps_within_cap :
  forall recurse n tags page_urls l,
    0 <= n ->
    visit_sitemaps recurse n tags page_urls = Some l -> Py.len l <= n.
Proof.
  intros recurse n tags. induction tags as [|t tags IH]; intros page_urls l Hn;
    cbn [visit_sitemaps].
  - intros H. inversion H. apply slice_to_length. exact Hn.
  - destruct (find (sitemap_ns "loc") t) as [loc|]; [|apply IH; exact Hn].
    destruct (strip_or_raise (text_of loc)) as [child|e].
    + destruct (recurse child) as [found|]; [apply IH; exact Hn|discriminate].
    + intros H. inversion H. cbn. exact Hn.
Qed.

(** Every level of the recursion returns at most [max_pages] URLs. *)
Lemma extract_within_cap :
  forall fuel w n sitemap_url l,
    0 <= n ->
    extract_all_page_urls fuel w n sitemap_url = Some l -> Py.len l <= n.
Proof.
  intros [|fuel] w n sitemap_url l Hn; cbn [extract_all_page_urls];
    [discriminate|].
  unfold sitemap_level.
  destruct (fetch_sitemap w sitemap_url) as [[root|]|e].
  - destruct (findall (sitemap_ns "sitemap") root) as [|t tags].
    + destruct (collect_locs _ []) as [page_urls|e]; cbn;
        intros H; inversion H; [apply slice_to_length|cbn]; exact Hn.
    + apply visit_sitemaps_within_cap. exact Hn.
  - intros H. inversion H. apply slice_to_length. exact Hn.
  - intros H. inversion H. cbn. exact Hn.
Qed.

(** ** The score of a page without H1 and without meta description *)

Lemma fst_note_silent :
  forall cond rec f, fst (note cond [] rec f) = fst f.
Proof.
  intros cond rec [i r]. unfold note. destruct cond; cbn; [apply app_nil_r|reflexivity].
Qed.



Lemma headers_without_any :
  hd_issues (analyze_headers [] [] [])
  = ["Missing H1 tag"; "No header tags found"].
Proof. reflexivity. Qed.





(** * Further properties of the analyzers *)

(** ** Title and meta description *)

Lemma title_checks_no_meta_issue :
  forall title x,
    In x (fst (title_checks title)) ->
    x <> "Meta description too short" /\ x <> "Meta description too long".
Proof.
  intros title x. unfold title_checks.
  destruct (is_missing title);
    [|destruct (_ <? 30); [|destruct (60 <? _)]; destruct (negb _)];
    cbn [fst In app]; intros Hx; intuition (subst; discriminate).
Qed.

(** X1: for a meta description that is present (not empty and not the
    marker N/A), "Meta description too short" is reported exactly when its
    length is below 120 and "Meta description too long" exactly when it is
    above 160; lengths 120 to 160 report neither. *)
Theorem meta_description_length_thresholds :
  forall title meta_desc url : string,
    is_missing meta_desc = false ->
    let issues := tm_issues (analyze_title_meta title meta_desc url) in
    (In "Meta description too short" issues <-> Py.slen meta_desc < 120)
    /\ (In "Meta description too long" issues <-> 160 < Py.slen meta_desc).
Proof.
  intros title meta_desc url Hpresent issues. subst issues.
  rewrite tm_issues_split.
  assert (Hti : forall x,
             x = "Meta description too short" \/ x = "Meta description too long" ->
             (In x (fst (title_checks title) ++ fst (meta_checks meta_desc))
              <-> In x (fst (meta_checks meta_desc)))).
  { intros x Hx. rewrite in_app_iff. split; [|tauto].
    intros [H|H]; [|exact H]. exfalso.
    destruct (title_checks_no_meta_issue title x H) as [H1 H2].
    destruct Hx; contradiction. }
  rewrite !Hti by tauto.
  unfold meta_checks. rewrite Hpresent.
  destruct (Z.ltb_spec (Py.slen meta_desc) 120);
    [|destruct (Z.ltb_spec 160 (Py.slen meta_desc))];
    cbn [fst In]; intuition (try discriminate; try lia).
Qed.

Lemma meta_description_length_thresholds_witness :
  ~ In "Meta description too short"
      (tm_issues (analyze_title_meta "N/A" (Py.repeat_str "abcdefghi " 12)
                    Sample.page_url)).
Proof.
  intros H.
  apply (meta_description_length_thresholds "N/A"
           (Py.repeat_str "abcdefghi " 12) Sample.page_url) in H;
    [vm_compute in H; discriminate|reflexivity].
Defined.

Lemma nodup_length_le :
  forall l : list string,
    (List.length (nodup string_dec l) <= List.length l)%nat.
Proof.
  induction l as [|x l IH]; cbn; [lia|].
  destruct (in_dec string_dec x l); cbn; lia.
Qed.

Lemma nodup_length_all :
  forall l : list string,
    List.length (nodup string_dec l) = List.length l <-> NoDup l.
Proof.
  induction l as [|x l IH]; cbn.
  - split; [constructor|reflexivity].
  - pose proof (nodup_length_le l) as Hle.
    destruct (in_dec string_dec x l) as [Hin|Hnin]; cbn.
    + split; [lia|]. intros Hnd. inversion Hnd. contradiction.
    + split.
      * intros H. constructor; [exact Hnin|]. apply IH. lia.
      * intros Hnd. inversion Hnd. f_equal. apply IH. assumption.
Qed.

(** X2: for a title that is present, "Duplicate words in title" is reported
    exactly when some word occurs twice among the white-space separated
    words of the lower-cased title: the comparison ignores case and counts
    punctuation as part of the word. *)
Theorem duplicate_words_reported :
  forall title meta_desc url : string,
    is_missing title = false ->
    (In "Duplicate words in title"
       (tm_issues (analyze_title_meta title meta_desc url))
     <-> ~ NoDup (Py.split (Py.lower title))).
Proof.
  intros title meta_desc url Hpresent.
  rewrite tm_issues_split.
  assert (Hmeta : In "Duplicate words in title" (fst (meta_checks meta_desc))
                  -> False).
  { unfold meta_checks.
    destruct (is_missing meta_desc);
      [|destruct (_ <? 120); [|destruct (160 <? _)]];
      cbn [fst In]; intuition discriminate. }
  rewrite in_app_iff.
  assert (Htitle : In "Duplicate words in title" (fst (title_checks title))
                   <-> ~ NoDup (Py.split (Py.lower title))).
  { unfold title_checks. rewrite Hpresent.
    pose proof (nodup_length_all (Py.split (Py.lower title))) as Hnd.
    unfold Py.count_distinct, Py.len.
    destruct (Z.eqb_spec (Z.of_nat (List.length (Py.split (Py.lower title))))
                (Z.of_nat (List.length
                             (nodup string_dec (Py.split (Py.lower title))))))
      as [Heq|Hne]; cbn [negb].
    - assert (Hno : NoDup (Py.split (Py.lower title))) by (apply Hnd; lia).
      destruct (_ <? 30); [|destruct (60 <? _)]; cbn [fst In];
        intuition discriminate.
    - assert (Hdup : ~ NoDup (Py.split (Py.lower title))).
      { intros Hno. apply Hnd in Hno. lia. }
      destruct (_ <? 30); [|destruct (60 <? _)]; cbn [fst In app]; tauto. }
  tauto.
Qed.

Lemma duplicate_words_reported_witness :
  In "Duplicate words in title"
    (tm_issues (analyze_title_meta "SEO tips: the best seo tools" "N/A"
                  Sample.page_url)).
Proof.
  apply (duplicate_words_reported "SEO tips: the best seo tools" "N/A"
           Sample.page_url); [reflexivity|].
  intros Hnd. vm_compute in Hnd.
  inversion Hnd as [|x l Hnin _]. apply Hnin. vm_compute. tauto.
Defined.

(** ** Headers *)

(** X3: the header analyzer reports no issue exactly when the page has
    exactly one H1; "Multiple H1 tags" exactly when it has several, "Missing
    H1 tag" exactly when it has none, and "No header tags found" exactly
    when it has no H1, H2 or H3 at all, always next to "Missing H1 tag". *)
Theorem header_issues_by_counts :
  forall h1_tags h2_tags h3_tags : list string,
    let issues := hd_issues (analyze_headers h1_tags h2_tags h3_tags) in
    (issues = [] <-> Py.len h1_tags = 1)
    /\ (In "Missing H1 tag" issues <-> h1_tags = [])
    /\ (In "Multiple H1 tags" issues <-> 1 < Py.len h1_tags)
    /\ (In "No header tags found" issues
        <-> h1_tags = [] /\ h2_tags = [] /\ h3_tags = [])
    /\ (List.length issues <= 2)%nat.
Proof.
  intros h1_tags h2_tags h3_tags issues. subst issues.
  unfold analyze_headers.
  destruct h1_tags as [|a [|b h1]].
  - assert (Htot : (Py.len (@nil string) + Py.len h2_tags + Py.len h3_tags =? 0)
                   = match h2_tags, h3_tags with
                     | [], [] => true
                     | _, _ => false
                     end).
    { unfold Py.len. destruct h2_tags, h3_tags; cbn [List.length];
        [reflexivity|apply Z.eqb_neq; lia..]. }
    rewrite Htot.
    destruct h2_tags, h3_tags; try destruct (_ <? 3);
      cbn [hd_issues app In List.length Py.len];
      repeat split; intros; try lia; try discriminate; try tauto;
      intuition (try discriminate; try congruence).
  - assert (Htot : (Py.len [a] + Py.len h2_tags + Py.len h3_tags =? 0) = false)
      by (apply Z.eqb_neq; unfold Py.len; cbn [List.length]; lia).
    rewrite Htot. change (1 <? Py.len [a]) with false.
    destruct (_ <? 3); cbn [hd_issues app In List.length];
      repeat split; intros; try lia; try discriminate; try tauto;
      try reflexivity; intuition (try discriminate; try congruence).
  - assert (Htot : (Py.len (a :: b :: h1) + Py.len h2_tags + Py.len h3_tags =? 0)
                   = false)
      by (apply Z.eqb_neq; unfold Py.len; cbn [List.length]; lia).
    assert (Hmany : (1 <? Py.len (a :: b :: h1)) = true)
      by (apply Z.ltb_lt; unfold Py.len; cbn [List.length]; lia).
    rewrite Htot, Hmany.
    assert (Hlen : 1 < Py.len (a :: b :: h1)) by (apply Z.ltb_lt; exact Hmany).
    destruct (_ <? 3); cbn [hd_issues app In List.length];
      repeat split; intros; try lia; try discriminate; try tauto;
      intuition (try discriminate; try congruence; try lia).
Qed.

(** ** URL structure *)







(** ** Content quality *)

Lemma exceeds_percentage :
  forall a b : Z,
    0 < b ->
    (exceeds (inject_Z a / inject_Z b * inject_Z 100)%Q 3 = true
     <-> 3 * b < 100 * a).
Proof.
  intros a b Hb. unfold exceeds. rewrite Bool.negb_true_iff.
  rewrite <- Bool.not_true_iff_false, Qle_bool_iff.
  destruct b as [|p|p]; try lia.
  unfold Qle, Qdiv, Qmult, Qinv, inject_Z. cbn [Qnum Qden].
  rewrite ?Pos.mul_1_l, ?Pos.mul_1_r. lia.
Qed.

Lemma exceeds_ratio :
  forall a b t : Z,
    0 < b ->
    (exceeds (inject_Z a / inject_Z b)%Q t = true <-> t * b < a).
Proof.
  intros a b t Hb. unfold exceeds. rewrite Bool.negb_true_iff.
  rewrite <- Bool.not_true_iff_false, Qle_bool_iff.
  destruct b as [|p|p]; try lia.
  unfold Qle, Qdiv, Qmult, Qinv, inject_Z. cbn [Qnum Qden].
  rewrite ?Pos.mul_1_l, ?Pos.mul_1_r. lia.
Qed.

Lemma divide_returns :
  forall a b, b <> 0 -> divide a b = Ret (inject_Z a / inject_Z b)%Q.
Proof.
  intros a b Hb. unfold divide.
  destruct (Z.eqb_spec b 0); [contradiction|reflexivity].
Qed.

Lemma readability_step_returns :
  forall word_count text_content (f : findings),
    exists f',
      (if 0 <? sentence_count text_content
       then avg_words_per_sentence <-
              divide word_count (sentence_count text_content) ;;
            Ret (note (exceeds avg_words_per_sentence 20) []
                   ["Consider shorter sentences for better readability"] f)
       else Ret f) = Ret f'
      /\ fst f' = fst f.
Proof.
  intros word_count text_content f.
  pose proof (sentence_count_ge_1 text_content) as Hs.
  assert (Hpos : (0 <? sentence_count text_content) = true)
    by (apply Z.ltb_lt; lia).
  rewrite Hpos, divide_returns by lia. cbn [bind].
  eexists. split; [reflexivity|]. apply fst_note_silent.
Qed.

Lemma content_quality_returns :
  forall (word_count : Z) (keyword_density : counter) (text_content : string),
    word_count <> 0 \/ keyword_density = [] ->
    exists c,
      analyze_content_quality word_count keyword_density text_content = Ret c.
Proof.
  intros word_count keyword_density text_content H.
  unfold analyze_content_quality.
  set (f0 := if word_count <? 300 then _ else _).
  destruct keyword_density as [|kc rest].
  - cbn [bind].
    destruct (readability_step_returns word_count text_content f0)
      as [f' [Hf' _]].
    rewrite Hf'. cbn [bind]. eexists. reflexivity.
  - assert (Hwc : word_count <> 0) by (destruct H; congruence).
    rewrite divide_returns by exact Hwc. cbn [bind].
    match goal with
    | |- context [note ?cond ["Keyword over-optimization"] ?r f0] =>
        destruct (readability_step_returns word_count text_content
                    (note cond ["Keyword over-optimization"] r f0))
          as [f' [Hf' _]]
    end.
    rewrite Hf'. cbn [bind]. eexists. reflexivity.
Qed.

(** X6: the content analyzer raises [ZeroDivisionError] exactly when it is
    given a word count of 0 together with a non-empty keyword mapping; in
    every other case it returns, whatever the text. *)
Theorem content_quality_raises_only_on_zero_words :
  forall (word_count : Z) (keyword_density : counter) (text_content : string),
    (word_count = 0 /\ keyword_density <> [] ->
     analyze_content_quality word_count keyword_density text_content
     = Raise division_by_zero)
    /\ (word_count <> 0 \/ keyword_density = [] ->
        exists c,
          analyze_content_quality word_count keyword_density text_content
          = Ret c).
Proof.
  intros word_count keyword_density text_content. split.
  - intros [Hwc Hkd]. subst word_count. unfold analyze_content_quality.
    destruct keyword_density as [|kc rest]; [congruence|]. reflexivity.
  - apply content_quality_returns.
Qed.

Lemma content_quality_raises_only_on_zero_words_witness :
  analyze_content_quality 0 [("keyword", 1)] "" = Raise division_by_zero.
Proof.
  apply (proj1 (content_quality_raises_only_on_zero_words 0 [("keyword", 1)] "")).
  split; [reflexivity|discriminate].
Defined.

(** X7: for a positive word count the analyzer returns, and its findings
    are decided by integer comparisons: "Content too short" and the label
    "Poor" exactly below 300 words, "Keyword over-optimization" exactly when
    the mapping is not empty and its largest count is more than 3% of the
    word count; these are the only content issues. *)
Theorem content_issues_thresholds :
  forall (word_count : Z) (keyword_density : counter) (text_content : string),
    0 < word_count ->
    exists c,
      analyze_content_quality word_count keyword_density text_content = Ret c
      /\ cq_word_count c = word_count
      /\ (In "Content too short" (cq_issues c) <-> word_count < 300)
      /\ (readability_score c = "Poor" <-> word_count < 300)
      /\ (In "Keyword over-optimization" (cq_issues c)
          <-> keyword_density <> []
              /\ 3 * word_count < 100 * max_value keyword_density)
      /\ (forall x, In x (cq_issues c) ->
                    x = "Content too short" \/ x = "Keyword over-optimization").
Proof.
  intros word_count keyword_density text_content Hwc.
  unfold analyze_content_quality.
  set (f0 := if word_count <? 300 then _ else _).
  assert (Hf0 : fst f0 = if word_count <? 300 then ["Content too short"] else []).
  { subst f0. destruct (word_count <? 300); [reflexivity|].
    destruct (3000 <? word_count); reflexivity. }
  set (f1 := match keyword_density with
             | [] => f0
             | _ => note (exceeds (inject_Z (max_value keyword_density)
                                   / inject_Z word_count * inject_Z 100)%Q 3)
                      ["Keyword over-optimization"]
                      ["Reduce keyword density to 2-3%"] f0
             end).
  assert (Hstep : match keyword_density with
                  | [] => Ret f0
                  | _ =>
                      share <- divide (max_value keyword_density) word_count ;;
                      Ret (note (exceeds (share * inject_Z 100)%Q 3)
                             ["Keyword over-optimization"]
                             ["Reduce keyword density to 2-3%"] f0)
                  end = Ret f1).
  { subst f1. destruct keyword_density; [reflexivity|].
    rewrite divide_returns by lia. reflexivity. }
  rewrite Hstep. cbn [bind].
  destruct (readability_step_returns word_count text_content f1)
    as [f' [Hf' Hfst]].
  rewrite Hf'. cbn [bind]. eexists. split; [reflexivity|].
  cbn [cq_word_count cq_issues readability_score]. rewrite Hfst.
  assert (Hf1 : forall x,
             In x (fst f1)
             <-> In x (fst f0)
                 \/ (keyword_density <> []
                     /\ 3 * word_count < 100 * max_value keyword_density
                     /\ x = "Keyword over-optimization")).
  { intros x. subst f1. destruct keyword_density as [|kc rest].
    - intuition congruence.
    - rewrite in_note, exceeds_percentage by exact Hwc.
      intuition (try discriminate; try congruence). }
  split; [reflexivity|].
  split.
  { rewrite Hf1, Hf0. destruct (Z.ltb_spec word_count 300); cbn [In];
      intuition (try discriminate; try lia). }
  split.
  { destruct (Z.leb_spec 300 word_count); split; intros; try lia;
      try discriminate; reflexivity. }
  split.
  { rewrite Hf1, Hf0. destruct (Z.ltb_spec word_count 300); cbn [In];
      intuition (try discriminate; try lia). }
  intros x Hx. apply Hf1 in Hx. rewrite Hf0 in Hx.
  destruct (word_count <? 300); cbn [In] in Hx; intuition.
Qed.

Lemma content_issues_thresholds_witness :
  exists c,
    analyze_content_quality 300 [("keyword", 9)] "One. Two." = Ret c
    /\ ~ In "Content too short" (cq_issues c)
    /\ ~ In "Keyword over-optimization" (cq_issues c).
Proof.
  destruct (content_issues_thresholds 300 [("keyword", 9)] "One. Two.")
    as [c [Hc [_ [Hshort [_ [Hover _]]]]]]; [reflexivity|].
  exists c. split; [exact Hc|]. split.
  - intros H. apply Hshort in H. discriminate.
  - intros H. apply Hover in H. destruct H as [_ H]. vm_compute in H.
    discriminate.
Defined.

(** ** The score *)

(** X8: the score never rises when a deduction grows: each further issue
    or image without alternative text lowers it or leaves it unchanged; the
    penalty for images stops growing at 10 images; and the bonus for
    internal links, which depends only on whether there are at least 3,
    adds between 0 and 5 points. *)
Theorem score_monotone :
  forall (tm tm' : title_meta_result) (hd hd' : header_result)
         (u u' : url_result) (c c' : content_result)
         (links links' imgs imgs' : Z),
    (List.length (tm_issues tm) <= List.length (tm_issues tm'))%nat ->
    (List.length (hd_issues hd) <= List.length (hd_issues hd'))%nat ->
    (List.length (url_issues u) <= List.length (url_issues u'))%nat ->
    (List.length (cq_issues c) <= List.length (cq_issues c'))%nat ->
    imgs <= imgs' ->
    calculate_seo_score tm' hd' u' c' links imgs'
    <= calculate_seo_score tm hd u c links imgs
    /\ (10 <= imgs ->
        calculate_seo_score tm hd u c links imgs'
        = calculate_seo_score tm hd u c links imgs)
    /\ (3 <= links -> 3 <= links' ->
        calculate_seo_score tm hd u c links' imgs
        = calculate_seo_score tm hd u c links imgs)
    /\ (links < 3 -> links' < 3 ->
        calculate_seo_score tm hd u c links' imgs
        = calculate_seo_score tm hd u c links imgs)
    /\ calculate_seo_score tm hd u c 0 imgs
       <= calculate_seo_score tm hd u c 3 imgs
       <= calculate_seo_score tm hd u c 0 imgs + 5.
Proof.
  intros tm tm' hd hd' u u' c c' links links' imgs imgs' Htm Hhd Hu Hc Himg.
  unfold calculate_seo_score, Py.len.
  change (3 <=? 0) with false. change (3 <=? 3) with true. cbv iota.
  repeat split.
  - destruct (3 <=? links); lia.
  - intros H. destruct (3 <=? links); lia.
  - intros H H'. apply Z.leb_le in H, H'. rewrite H, H'. reflexivity.
  - intros H H'. apply Z.leb_gt in H, H'. rewrite H, H'. reflexivity.
  - lia.
  - lia.
Qed.

Lemma score_monotone_witness :
  calculate_seo_score (analyze_title_meta "" "" "") (analyze_headers [] [] [])
    (analyze_url_structure "") {| cq_word_count := 0; readability_score := "Poor";
                                  cq_issues := ["Content too short"];
                                  cq_recommendations := [] |} 0 12
  <= calculate_seo_score (analyze_title_meta "" "" "") (analyze_headers [] [] [])
       (analyze_url_structure "") {| cq_word_count := 0; readability_score := "Poor";
                                     cq_issues := ["Content too short"];
                                     cq_recommendations := [] |} 0 3.
Proof.
  apply (score_monotone _ _ _ _ _ _ _ _ 0 0 3 12); try apply le_n. lia.
Defined.

(** ** Counters *)

Lemma in_encounter_order :
  forall k l, In k (encounter_order l) <-> In k l.
Proof.
  intros k l. induction l as [|x l IH]; cbn; [tauto|].
  rewrite filter_In, IH. destruct (String.eqb_spec k x) as [->|Hne]; cbn.
  - tauto.
  - split; [tauto|]. intros [H|H]; [congruence|]. right. tauto.
Qed.

Lemma Counter_as_tally :
  forall words acc,
    fold_left (fun c w => counter_add w 1 c) words acc
    = fold_left tally_step (map (fun w => (w, 1)) words) acc.
Proof.
  induction words as [|w words IH]; intros acc; cbn [fold_left map];
    [reflexivity|].
  rewrite IH. reflexivity.
Qed.

Lemma summed_count_ones :
  forall k words,
    summed_count k (map (fun w => (w, 1)) words)
    = Z.of_nat (count_occ string_dec words k).
Proof.
  intros k words. induction words as [|w words IH]; cbn [map summed_count count_occ];
    [reflexivity|].
  rewrite IH. destruct (string_dec w k) as [->|Hne].
  - rewrite String.eqb_refl. lia.
  - destruct (String.eqb_spec k w); [congruence|lia].
Qed.

Lemma counter_get_entry :
  forall (c : counter) k v,
    NoDup (map fst c) -> In (k, v) c -> counter_get k c = v.
Proof.
  induction c as [|[k0 v0] c IH]; intros k v Hnd Hin; [contradiction|].
  cbn in Hnd |- *. inversion Hnd as [|? ? Hk0 Hc]; subst.
  destruct Hin as [Heq|Hin].
  - inversion Heq; subst. rewrite String.eqb_refl. reflexivity.
  - destruct (String.eqb_spec k k0) as [->|_]; [|exact (IH k v Hc Hin)].
    exfalso. apply Hk0. apply in_map_iff. exists (k0, v). split; [reflexivity|exact Hin].
Qed.

Lemma Counter_spec :
  forall words : list string,
    map fst (Counter words) = encounter_order words
    /\ NoDup (map fst (Counter words))
    /\ (forall k, counter_get k (Counter words)
                  = Z.of_nat (count_occ string_dec words k))
    /\ (forall k v, In (k, v) (Counter words) ->
                    v = Z.of_nat (count_occ string_dec words k) /\ 1 <= v).
Proof.
  intros words. unfold Counter. rewrite Counter_as_tally.
  assert (Hkeys : map fst (fold_left tally_step (map (fun w => (w, 1)) words) [])
                  = encounter_order words).
  { rewrite tally_keys, append_new_encounter_order. cbn [map app].
    rewrite map_map. cbn [fst]. rewrite map_id.
    rewrite <- (filter_ext (fun _ => true)) by reflexivity.
    induction (encounter_order words) as [|x l IH]; cbn; [|rewrite IH];
      reflexivity. }
  assert (Hnd : NoDup (map fst (fold_left tally_step
                                  (map (fun w => (w, 1)) words) [])))
    by (rewrite Hkeys; apply encounter_order_NoDup).
  assert (Hget : forall k,
             counter_get k (fold_left tally_step (map (fun w => (w, 1)) words) [])
             = Z.of_nat (count_occ string_dec words k)).
  { intros k. rewrite tally_get. cbn [counter_get].
    rewrite summed_count_ones. lia. }
  repeat split; try assumption.
  - rewrite <- (counter_get_entry _ k v Hnd H). apply Hget.
  - rewrite <- (counter_get_entry _ k v Hnd H), Hget.
    assert (Hin : In k words).
    { apply in_encounter_order. rewrite <- Hkeys. apply in_map_iff.
      exists (k, v). split; [reflexivity|exact H]. }
    apply (count_occ_In string_dec) in Hin. lia.
Qed.

(** X9: [Counter(words)] has one entry per distinct word, in the order in
    which the words first occur; the count read for any word is the number
    of its occurrences (0 when absent), and every stored count is the
    number of occurrences of its word, at least 1. *)
Theorem Counter_counts_occurrences :
  forall words : list string,
    map fst (Counter words) = encounter_order words
    /\ NoDup (map fst (Counter words))
    /\ (forall k, counter_get k (Counter words)
                  = Z.of_nat (count_occ string_dec words k))
    /\ (forall k v, In (k, v) (Counter words) ->
                    v = Z.of_nat (count_occ string_dec words k) /\ 1 <= v).
Proof.
  intros words. destruct (Counter_spec words) as [Hkeys [Hnd [Hget Hentries]]].
  repeat split; try assumption; apply (Hentries k v); assumption.
Qed.

(** ** The most common entries *)

Lemma insert_desc_perm :
  forall x l, Permutation (insert_desc x l) (x :: l).
Proof.
  intros x l. induction l as [|y l IH]; cbn; [reflexivity|].
  destruct (snd x <? snd y); [|reflexivity].
  rewrite IH. apply perm_swap.
Qed.

Lemma sort_desc_perm :
  forall l, Permutation (sort_desc l) l.
Proof.
  induction l as [|x l IH]; cbn; [reflexivity|].
  unfold sort_desc in *. cbn. rewrite insert_desc_perm, IH. reflexivity.
Qed.

Lemma insert_desc_sorted :
  forall x l,
    StronglySorted at_least l -> StronglySorted at_least (insert_desc x l).
Proof.
  intros x l Hs. induction Hs as [|y l Hs IH Hy]; cbn.
  - constructor; constructor.
  - destruct (Z.ltb_spec (snd x) (snd y)).
    + constructor; [exact IH|].
      apply (Permutation_Forall (Permutation_sym (insert_desc_perm x l))).
      constructor; [unfold at_least; lia|exact Hy].
    + constructor; [constructor; assumption|].
      constructor; [unfold at_least; lia|].
      rewrite Forall_forall in Hy |- *. intros z Hz.
      specialize (Hy z Hz). unfold at_least in *. lia.
Qed.

Lemma sort_desc_sorted :
  forall l, StronglySorted at_least (sort_desc l).
Proof.
  induction l as [|x l IH]; [constructor|].
  unfold sort_desc in *. cbn. apply insert_desc_sorted. exact IH.
Qed.

Lemma in_firstn :
  forall (A : Type) n (l : list A) x, In x (firstn n l) -> In x l.
Proof.
  intros A n. induction n as [|n IH]; intros [|y l] x; cbn; try tauto.
  intros [H|H]; [left; exact H|right; exact (IH l x H)].
Qed.

Lemma firstn_sorted :
  forall n (l : list (string * Z)),
    StronglySorted at_least l -> StronglySorted at_least (firstn n l).
Proof.
  induction n as [|n IH]; intros l Hs; [constructor|].
  destruct Hs as [|x l Hs Hx]; cbn; [constructor|].
  constructor; [apply IH; exact Hs|].
  rewrite Forall_forall in Hx |- *. intros y Hy. apply Hx.
  exact (in_firstn _ n l y Hy).
Qed.

(** X10: for a non-negative [n], [most_common(n)] returns at most [n]
    entries of the counter, ordered by non-increasing count: every entry
    counts at least as much as all the entries after it; when the counter
    has no more than [n] entries they are all returned. *)
Theorem most_common_sorted_prefix :
  forall (n : Z) (c : counter),
    0 <= n ->
    Py.len (most_common n c) <= n
    /\ StronglySorted at_least (most_common n c)
    /\ (forall e, In e (most_common n c) -> In e c)
    /\ (Py.len c <= n -> Permutation (most_common n c) c).
Proof.
  intros n c Hn. unfold most_common.
  split; [apply slice_to_length; exact Hn|].
  unfold Py.slice_to. destruct (Z.leb_spec 0 n); [|lia].
  split; [apply firstn_sorted, sort_desc_sorted|].
  split.
  - intros e He. apply in_firstn in He.
    exact (Permutation_in e (sort_desc_perm c) He).
  - intros Hlen. rewrite firstn_all2; [apply sort_desc_perm|].
    rewrite (Permutation_length (sort_desc_perm c)).
    unfold Py.len in Hlen. lia.
Qed.

Lemma most_common_sorted_prefix_witness :
  most_common 2 [("a", 1); ("b", 3); ("c", 3); ("d", 2)]
  = [("b", 3); ("c", 3)]
  /\ Py.len (most_common 2 [("a", 1); ("b", 3); ("c", 3); ("d", 2)]) <= 2.
Proof.
  split; [reflexivity|].
  apply (most_common_sorted_prefix 2 [("a", 1); ("b", 3); ("c", 3); ("d", 2)]).
  lia.
Defined.

(** ** The shape of the extracted keywords *)

Lemma split_at_length :
  forall k s,
    (k <= Re.letters_run s)%nat ->
    String.length (fst (Re.split_at k s)) = k.
Proof.
  induction k as [|k IH]; intros s Hk.
  - destruct s; reflexivity.
  - destruct s as [|c s]; cbn in Hk; [lia|].
    destruct (Py.is_alpha c); [|lia].
    specialize (IH s ltac:(lia)). cbn.
    destruct (Re.split_at k s) as [w r]. cbn in IH |- *. lia.
Qed.

Lemma backtrack_bounds :
  forall lo must_advance prev s k w r,
    (k <= Re.letters_run s)%nat ->
    Re.backtrack lo must_advance prev s k = Some (w, r) ->
    (N.to_nat lo <= String.length w <= k)%nat
    /\ exists k', Re.split_at k' s = (w, r).
Proof.
  intros lo must_advance prev s k. induction k as [|k IH]; intros w r Hk;
    rewrite backtrack_unfold;
    pose proof (split_at_length _ s Hk) as Hlen;
    destruct (Re.split_at _ s) as [w' r'] eqn:Hsplit; cbn [fst] in Hlen;
    destruct (_ && _)%bool eqn:Hcond; intros H; try discriminate.
  - inversion H; subst. apply Bool.andb_true_iff in Hcond.
    destruct Hcond as [Hcond _]. apply Bool.andb_true_iff in Hcond.
    destruct Hcond as [Hlo _]. apply N.leb_le in Hlo.
    split; [lia|]. exists 0%nat. exact Hsplit.
  - inversion H; subst. apply Bool.andb_true_iff in Hcond.
    destruct Hcond as [Hcond _]. apply Bool.andb_true_iff in Hcond.
    destruct Hcond as [Hlo _]. apply N.leb_le in Hlo.
    split; [lia|]. exists (S k). exact Hsplit.
  - destruct (IH w r ltac:(lia) H) as [Hb Hex]. split; [lia|exact Hex].
Qed.

Lemma match_here_bounds :
  forall lo hi must_advance prev s w r,
    Re.match_here lo hi must_advance prev s = Some (w, r) ->
    (N.to_nat lo <= String.length w <= N.to_nat hi)%nat
    /\ exists k, Re.split_at k s = (w, r).
Proof.
  intros lo hi must_advance prev s w r. unfold Re.match_here.
  destruct (Re.boundary prev s); [|discriminate].
  intros H. apply backtrack_bounds in H; [|lia].
  destruct H as [Hb Hex]. split; [lia|exact Hex].
Qed.

Lemma all_chars_split_at :
  forall p k s w r,
    Re.split_at k s = (w, r) ->
    Py.all_chars p s = true ->
    Py.all_chars p w = true /\ Py.all_chars p r = true.
Proof.
  intros p. induction k as [|k IH]; intros s w r Hsplit Hall.
  - destruct s; cbn in Hsplit; inversion Hsplit; subst; split;
      (reflexivity || exact Hall).
  - destruct s as [|c s]; cbn in Hsplit.
    + inversion Hsplit; subst. split; reflexivity.
    + destruct (Re.split_at k s) as [w' r'] eqn:Hs. inversion Hsplit; subst.
      cbn in Hall |- *. apply Bool.andb_true_iff in Hall.
      destruct Hall as [Hc Hrest].
      destruct (IH s w' r Hs Hrest) as [Hw Hr].
      rewrite Hc, Hw. split; [reflexivity|exact Hr].
Qed.

Lemma any_char_split_at :
  forall p k s w r,
    Re.split_at k s = (w, r) ->
    Py.any_char p w = true \/ Py.any_char p r = true ->
    Py.any_char p s = true.
Proof.
  intros p. induction k as [|k IH]; intros s w r Hsplit Hany.
  - destruct s; cbn in Hsplit; inversion Hsplit; subst;
      destruct Hany as [H|H]; (discriminate || exact H).
  - destruct s as [|c s]; cbn in Hsplit.
    + inversion Hsplit; subst. destruct Hany; discriminate.
    + destruct (Re.split_at k s) as [w' r'] eqn:Hs. inversion Hsplit; subst.
      cbn in Hany |- *. destruct (p c); [reflexivity|]. cbn in *.
      exact (IH s w' r Hs Hany).
Qed.

(** What the search loop guarantees for each word it finds in a text whose
    characters all satisfy [p]. *)
Lemma findall_from_words :
  forall p fuel lo hi must_advance prev s,
    Py.all_chars p s = true ->
    Forall (fun w =>
              Py.all_chars p w = true
              /\ (N.to_nat lo <= String.length w <= N.to_nat hi)%nat
              /\ (forall q, Py.any_char q w = true -> Py.any_char q s = true))
      (Re.findall_from fuel lo hi must_advance prev s).
Proof.
  intros p. induction fuel as [|fuel IH]; intros lo hi must_advance prev s Hall;
    cbn [Re.findall_from]; [constructor|].
  destruct (Re.match_here lo hi must_advance prev s) as [[w r]|] eqn:Hm.
  - destruct (match_here_bounds _ _ _ _ _ _ _ Hm) as [Hb [k Hk]].
    destruct (all_chars_split_at p k s w r Hk Hall) as [Hw Hr].
    constructor.
    + split; [exact Hw|]. split; [exact Hb|].
      intros q Hq. apply (any_char_split_at q k s w r Hk). left. exact Hq.
    + eapply Forall_impl; [|apply (IH lo hi _ _ r Hr)].
      cbn beta. intros w' [H1 [H2 H3]]. split; [exact H1|]. split; [exact H2|].
      intros q Hq. apply (any_char_split_at q k s w r Hk). right.
      exact (H3 q Hq).
  - destruct s as [|c s]; [constructor|].
    cbn in Hall. apply Bool.andb_true_iff in Hall. destruct Hall as [_ Hrest].
    eapply Forall_impl; [|apply (IH lo hi false (Some c) s Hrest)].
    cbn beta. intros w' [H1 [H2 H3]]. split; [exact H1|]. split; [exact H2|].
    intros q Hq. cbn. rewrite (H3 q Hq). apply Bool.orb_true_r.
Qed.

Lemma lower_char_not_upper :
  forall c, Py.is_upper (Py.lower_char c) = false.
Proof.
  intros c. unfold Py.lower_char.
  destruct (Py.in_range 65 90 c || Py.in_range 192 214 c
            || Py.in_range 216 222 c)%bool eqn:Hcond.
  - unfold Py.is_upper, Py.in_range, Py.code in *.
    assert (Hn : (65 <= nat_of_ascii c <= 222)%nat).
    { repeat (apply Bool.orb_true_iff in Hcond; destruct Hcond as [Hcond|Hcond]);
        apply Bool.andb_true_iff in Hcond; destruct Hcond as [H1 H2];
        apply Nat.leb_le in H1, H2; lia. }
    rewrite nat_ascii_embedding by lia.
    apply Bool.andb_false_iff. right. apply Nat.leb_gt. lia.
  - apply Bool.orb_false_iff in Hcond. destruct Hcond as [Hcond _].
    apply Bool.orb_false_iff in Hcond. destruct Hcond as [Hcond _].
    exact Hcond.
Qed.

Lemma lower_no_upper :
  forall s, Py.all_chars (fun c => negb (Py.is_upper c)) (Py.lower s) = true.
Proof.
  induction s as [|c s IH]; cbn; [reflexivity|].
  rewrite lower_char_not_upper, IH. reflexivity.
Qed.

Lemma alpha_not_upper_is_lower :
  forall w,
    Py.all_chars Py.is_alpha w = true ->
    Py.all_chars (fun c => negb (Py.is_upper c)) w = true ->
    Py.all_chars Py.is_lower w = true.
Proof.
  induction w as [|c w IH]; cbn; [reflexivity|].
  intros Ha Hu. apply Bool.andb_true_iff in Ha, Hu.
  destruct Ha as [Ha Ha'], Hu as [Hu Hu'].
  rewrite (IH Ha' Hu'). unfold Py.is_alpha in Ha.
  apply Bool.negb_true_iff in Hu. rewrite Hu in Ha. cbn in Ha.
  rewrite Ha. reflexivity.
Qed.

Lemma Counter_key_is_word :
  forall words k, In k (map fst (Counter words)) <-> In k words.
Proof.
  intros words k.
  destruct (Counter_spec words) as [Hkeys _].
  rewrite Hkeys. apply in_encounter_order.
Qed.

(** X11: with the default bounds the keyword extractor always returns, and
    every keyword it counts has between 4 and 20 characters, all of them
    lower-case letters a-z, and is not a stop word; its count is positive. *)
Theorem get_keywords_shape :
  forall text : string,
    exists kd,
      get_keywords text = Ret kd
      /\ forall k v,
           In (k, v) kd ->
           (4 <= String.length k <= 20)%nat
           /\ Py.all_chars Py.is_lower k = true
           /\ is_stop_word k = false
           /\ 1 <= v.
Proof.
  intros text. eexists. split; [reflexivity|].
  intros k v Hin.
  set (words := Re.findall_words (Z.to_N 4) (Z.to_N 20) (Py.lower text)) in *.
  set (filtered := filter _ words) in *.
  assert (Hk : In k filtered).
  { apply Counter_key_is_word. apply in_map_iff.
    exists (k, v). split; [reflexivity|exact Hin]. }
  subst filtered. apply filter_In in Hk. destruct Hk as [Hw Hf].
  apply Bool.andb_true_iff in Hf. destruct Hf as [Hstop _].
  apply Bool.negb_true_iff in Hstop.
  pose proof (findall_from_words _ (2 * String.length (Py.lower text) + 2)
                (Z.to_N 4) (Z.to_N 20) false None (Py.lower text)
                (lower_no_upper text)) as Hall.
  rewrite Forall_forall in Hall. destruct (Hall k Hw) as [Hup [Hlen _]].
  pose proof (findall_from_letters (2 * String.length (Py.lower text) + 2)
                (Z.to_N 4) (Z.to_N 20) false None (Py.lower text)) as Hletters.
  rewrite Forall_forall in Hletters. specialize (Hletters k Hw).
  split; [exact Hlen|]. split; [apply alpha_not_upper_is_lower; assumption|].
  split; [exact Hstop|].
  destruct (Counter_spec
              (filter (fun word => (negb (is_stop_word word)
                                    && negb (Py.isdigit word))%bool) words))
    as [_ [_ [_ Hentries]]].
  exact (proj2 (Hentries k v Hin)).
Qed.

(** ** Words and keywords of a page *)








(** ** The page auditor, once the page is fetched *)





(** ** Internal and external links *)







(** ** The record of an audited page *)

Lemma filter_partition_length :
  forall (A : Type) (p : A -> bool) (l : list A),
    List.length l
    = (List.length (filter (fun x => negb (p x)) l)
       + List.length (filter p l))%nat.
Proof.
  intros A p l. induction l as [|x l IH]; cbn; [reflexivity|].
  destruct (p x); cbn; lia.
Qed.

Lemma header_counts :
  forall h1_tags h2_tags h3_tags,
    h1_count (analyze_headers h1_tags h2_tags h3_tags) = Py.len h1_tags
    /\ h2_count (analyze_headers h1_tags h2_tags h3_tags) = Py.len h2_tags
    /\ h3_count (analyze_headers h1_tags h2_tags h3_tags) = Py.len h3_tags.
Proof.
  intros h1_tags h2_tags h3_tags. unfold analyze_headers.
  destruct h1_tags; [|destruct (1 <? _)];
    (destruct (_ =? 0); [|destruct (_ <? 3)]); repeat split.
Qed.

(** X14: a record returned for an audited page is consistent with itself:
    it carries the URL that was asked for; its counts are the lengths of the
    lists it holds; every image either has an alternative text or is counted
    as being without one; its top keywords are the (at most 10) most common
    entries of its keyword mapping; and its score is the score recomputed
    from its own issue lists and counts, between 0 and 100. *)
Theorem audited_record_is_consistent :
  forall (w : world) (url u : string) (a : page_audit),
    get_seo_data w url = Audited u a ->
    u = url
    /\ H1_Count a = Py.len (H1_Tags a)
    /\ H2_Count a = Py.len (H2_Tags a)
    /\ H3_Count a = Py.len (H3_Tags a)
    /\ Internal_Links_Count a = Py.len (Internal_Links a)
    /\ External_Links_Count a = Py.len (External_Links a)
    /\ Images_Total a = Images_Without_Alt a + Py.len (Alt_Texts a)
    /\ 0 <= Word_Count a
    /\ Top_Keywords a = most_common 10 (Keyword_Density a)
    /\ Py.len (Top_Keywords a) <= 10
    /\ Overall_Score a
       = Z.max 0
           (Z.min 100
              (100
               - 10 * Py.len (Title_Meta_Issues a)
               - 10 * Py.len (Header_Issues a)
               - 5 * Py.len (URL_Issues a)
               - 10 * Py.len (Content_Issues a)
               - Z.min (2 * Images_Without_Alt a) 20
               + (if 3 <=? Internal_Links_Count a then 5 else 0)))
    /\ 0 <= Overall_Score a <= 100.
Proof.
  intros w url u a H. unfold get_seo_data, audit_page in H.
  destruct (requests_get w url) as [response|e]; [|discriminate].
  cbn [bind] in H.
  destruct (raise_for_status response) as [[]|e]; [|discriminate].
  cbn [bind] in H.
  destruct (html_parser w (body response)) as [s|e]; [|discriminate].
  cbn [bind] in H.
  destruct (match soup_title s with
            | Some x => strip_or_raise x
            | None => Ret "N/A"
            end) as [title|e]; [|discriminate].
  cbn [bind] in H.
  destruct (get_keywords (soup_text s)) as [kd|e]; [|discriminate].
  cbn [bind] in H.
  destruct (analyze_internal_links (urljoin_of w) (urlparse_of w) (soup_anchors s)
              url) as [[internal external]|e]; [|discriminate].
  cbn [bind] in H.
  destruct (analyze_content_quality _ kd (soup_text s)) as [c|e];
    [|discriminate].
  cbn [bind try_except] in H.
  remember (analyze_url_structure url) as url_analysis eqn:Hua.
  inversion H; subst u a. clear H.
  cbn [H1_Count H2_Count H3_Count H1_Tags H2_Tags H3_Tags
       Internal_Links_Count External_Links_Count Internal_Links External_Links
       Images_Total Images_Without_Alt Alt_Texts Word_Count Top_Keywords
       Keyword_Density Overall_Score Title_Meta_Issues Header_Issues
       URL_Issues Content_Issues].
  repeat split; try reflexivity; try apply header_counts.
  - unfold Py.len. rewrite length_map.
    rewrite (filter_partition_length _ truthy (soup_images s)). lia.
  - unfold Py.len. lia.
  - unfold most_common. apply slice_to_length. lia.
  - unfold calculate_seo_score. f_equal. f_equal.
    repeat match goal with
           | |- context [Py.len ?x] => generalize (Py.len x); intro
           end.
    match goal with |- context [3 <=? ?n] => destruct (3 <=? n) end; lia.
  - unfold calculate_seo_score. lia.
  - unfold calculate_seo_score. lia.
Qed.

Lemma audited_record_is_consistent_witness :
  exists a,
    get_seo_data (Sample.site (Sample.page [])) Sample.page_url
    = Audited Sample.page_url a
    /\ 0 <= Overall_Score a <= 100.
Proof.
  eexists. split; [vm_compute; reflexivity|].
  eapply (audited_record_is_consistent (Sample.site (Sample.page []))
            Sample.page_url Sample.page_url).
  vm_compute. reflexivity.
Defined.

Lemma Counter_counts_occurrences_witness :
  2 = Z.of_nat (count_occ string_dec ["seo"; "audit"; "seo"] "seo") /\ 1 <= 2.
Proof.
  apply (Counter_counts_occurrences ["seo"; "audit"; "seo"]).
  vm_compute. left. reflexivity.
Defined.

Lemma get_keywords_shape_witness :
  exists kd,
    get_keywords "Audit the SEO of this page: audit titles." = Ret kd
    /\ In ("audit", 2) kd
    /\ (4 <= String.length "audit" <= 20)%nat.
Proof.
  destruct (get_keywords_shape "Audit the SEO of this page: audit titles.")
    as [kd [Hkd Hshape]].
  exists kd. split; [exact Hkd|].
  assert (Hin : In ("audit", 2) kd).
  { vm_compute in Hkd. inversion Hkd. left. reflexivity. }
  split; [exact Hin|]. exact (proj1 (Hshape "audit" 2 Hin)).
Defined.

(** ** Sitemaps *)

Lemma collect_locs_spec :
  forall locs page_urls,
    collect_locs locs page_urls
    = match all_some (map text_of locs) with
      | Some texts => Ret (page_urls ++ map Py.strip texts)
      | None => Raise (attribute_error "strip")
      end.
Proof.
  induction locs as [|u locs IH]; intros page_urls; cbn [collect_locs map all_some].
  - rewrite app_nil_r. reflexivity.
  - destruct (text_of u) as [t|]; cbn [strip_or_raise bind]; [|reflexivity].
    rewrite IH. destruct (all_some (map text_of locs)); [|reflexivity].
    cbn [map]. rewrite <- app_assoc. reflexivity.
Qed.

(** X15: a regular sitemap (one without [sitemap] entries) yields the
    stripped texts of its [loc] elements in document order, cut to the page
    cap; if one of the [loc] elements has no text at all, the exception is
    caught and the whole sitemap yields nothing. *)
Theorem regular_sitemap_urls :
  forall (fuel : nat) (w : world) (max_pages : Z) (sitemap_url : string)
         (root : element),
    fetch_sitemap w sitemap_url = Ret (Some root) ->
    findall (sitemap_ns "sitemap") root = [] ->
    extract_all_page_urls (S fuel) w max_pages sitemap_url
    = Some match all_some (map text_of (findall (sitemap_ns "loc") root)) with
           | Some texts => Py.slice_to max_pages (map Py.strip texts)
           | None => []
           end.
Proof.
  intros fuel w max_pages sitemap_url root Hfetch Hregular.
  cbn [extract_all_page_urls]. unfold sitemap_level.
  rewrite Hfetch, Hregular, collect_locs_spec.
  destruct (all_some _); reflexivity.
Qed.

Lemma regular_sitemap_urls_witness :
  extract_all_page_urls 1 (Sample.site (Sample.page [])) 2 Sample.child_1
  = Some ["a1"; "a2"].
Proof.
  apply (regular_sitemap_urls 0 (Sample.site (Sample.page [])) 2
           Sample.child_1 (Sample.urlset ["a1"; "a2"; "a3"]));
    reflexivity.
Defined.

Lemma visit_sitemaps_concat :
  forall recurse max_pages tags results page_urls,
    Forall2 (fun tag found =>
               exists loc t,
                 find (sitemap_ns "loc") tag = Some loc
                 /\ text_of loc = Some t
                 /\ recurse (Py.strip t) = Some found) tags results ->
    visit_sitemaps recurse max_pages tags page_urls
    = Some (Py.slice_to max_pages (page_urls ++ List.concat results)).
Proof.
  intros recurse max_pages tags results page_urls H. revert page_urls.
  induction H as [|tag found tags results [loc [t [Hloc [Ht Hrec]]]] _ IH];
    intros page_urls; cbn [visit_sitemaps List.concat].
  - rewrite app_nil_r. reflexivity.
  - rewrite Hloc, Ht. cbn [strip_or_raise]. rewrite Hrec, IH.
    rewrite <- app_assoc. reflexivity.
Qed.

(** X16: a sitemap index whose entries all have a [loc] with text, and
    whose child sitemaps all resolve, yields the URL lists of its children
    concatenated in the order of the entries and cut to the page cap. *)
Theorem sitemap_index_concatenates :
  forall (fuel : nat) (w : world) (max_pages : Z) (sitemap_url : string)
         (root : element) (results : list (list string)),
    fetch_sitemap w sitemap_url = Ret (Some root) ->
    findall (sitemap_ns "sitemap") root <> [] ->
    Forall2 (fun tag found =>
               exists loc t,
                 find (sitemap_ns "loc") tag = Some loc
                 /\ text_of loc = Some t
                 /\ extract_all_page_urls fuel w max_pages (Py.strip t)
                    = Some found)
      (findall (sitemap_ns "sitemap") root) results ->
    extract_all_page_urls (S fuel) w max_pages sitemap_url
    = Some (Py.slice_to max_pages (List.concat results)).
Proof.
  intros fuel w max_pages sitemap_url root results Hfetch Hindex Hchildren.
  cbn [extract_all_page_urls]. unfold sitemap_level. rewrite Hfetch.
  destruct (findall (sitemap_ns "sitemap") root) as [|tag tags] eqn:Htags;
    [congruence|].
  exact (visit_sitemaps_concat _ max_pages (tag :: tags) results [] Hchildren).
Qed.

Lemma sitemap_index_concatenates_witness :
  extract_all_page_urls 2 (Sample.site (Sample.page [])) 5 Sample.index_url
  = Some ["a1"; "a2"; "a3"; "b1"; "b2"].
Proof.
  apply (sitemap_index_concatenates 1 (Sample.site (Sample.page [])) 5
           Sample.index_url
           (Sample.sitemap_index [Sample.child_1; Sample.child_2])
           [["a1"; "a2"; "a3"]; ["b1"; "b2"; "b3"]]).
  - reflexivity.
  - discriminate.
  - repeat constructor;
      eexists; eexists; (split; [reflexivity|]); split; reflexivity.
Defined.

Lemma urlset_descendants :
  forall urls,
    descendants (Sample.urlset urls)
    = flat_map (fun u => [Element (sitemap_ns "url") None
                            [Element (sitemap_ns "loc") (Some u) []];
                          Element (sitemap_ns "loc") (Some u) []]) urls.
Proof.
  intros urls. unfold Sample.urlset. cbn [descendants].
  induction urls as [|u urls IH]; [reflexivity|].
  cbn [map flat_map app descendants]. rewrite IH. reflexivity.
Qed.

Lemma urlset_is_regular :
  forall urls, findall (sitemap_ns "sitemap") (Sample.urlset urls) = [].
Proof.
  intros urls. unfold findall. rewrite urlset_descendants.
  induction urls as [|u urls IH]; [reflexivity|].
  cbn [flat_map app filter tag_of].
  change (String.eqb (sitemap_ns "url") (sitemap_ns "sitemap")) with false.
  change (String.eqb (sitemap_ns "loc") (sitemap_ns "sitemap")) with false.
  exact IH.
Qed.

Lemma urlset_locs :
  forall urls,
    map text_of (findall (sitemap_ns "loc") (Sample.urlset urls))
    = map Some urls.
Proof.
  intros urls. unfold findall. rewrite urlset_descendants.
  induction urls as [|u urls IH]; [reflexivity|].
  cbn [flat_map app filter tag_of].
  change (String.eqb (sitemap_ns "url") (sitemap_ns "loc")) with false.
  change (String.eqb (sitemap_ns "loc") (sitemap_ns "loc")) with true.
  cbn [map text_of]. rewrite IH. reflexivity.
Qed.

Lemma all_some_present :
  forall (A : Type) (l : list A), all_some (map Some l) = Some l.
Proof.
  intros A l. induction l as [|x l IH]; cbn [map all_some];
    [reflexivity|rewrite IH; reflexivity].
Qed.

Lemma urlset_urls :
  forall fuel w max_pages sitemap_url urls,
    fetch_sitemap w sitemap_url = Ret (Some (Sample.urlset urls)) ->
    extract_all_page_urls (S fuel) w max_pages sitemap_url
    = Some (Py.slice_to max_pages (map Py.strip urls)).
Proof.
  intros fuel w max_pages sitemap_url urls Hfetch.
  cbn [extract_all_page_urls]. unfold sitemap_level.
  rewrite Hfetch, urlset_is_regular, collect_locs_spec, urlset_locs,
    all_some_present.
  reflexivity.
Qed.

(** C4: a sitemap index with two child sitemaps yields the URLs of the first
    child followed by those of the second, and the list is cut to the page
    cap at every level: each child returns its own URLs cut to the cap, the
    index level cuts their concatenation, and the driver cuts what it
    received (or the home page, when it received nothing) once more.  With
    three URLs in each child and a cap of 4 the result is the three URLs of
    the first child followed by the first URL of the second. *)
Theorem two_sitemaps_capped_at_four :
  forall (w : world) (fuel : nat) (max_pages : Z) (domain c1 c2 : string)
         (urls1 urls2 : list string),
    let index := (site_root domain ++ "/sitemap.xml")%string in
    let first := Py.slice_to max_pages (map Py.strip urls1) in
    let second := Py.slice_to max_pages (map Py.strip urls2) in
    let found := Py.slice_to max_pages (first ++ second) in
    fetch_sitemap w index = Ret (Some (Sample.sitemap_index [c1; c2])) ->
    fetch_sitemap w (Py.strip c1) = Ret (Some (Sample.urlset urls1)) ->
    fetch_sitemap w (Py.strip c2) = Ret (Some (Sample.urlset urls2)) ->
    extract_all_page_urls (S fuel) w max_pages (Py.strip c1) = Some first
    /\ extract_all_page_urls (S fuel) w max_pages (Py.strip c2) = Some second
    /\ extract_all_page_urls (S (S fuel)) w max_pages index = Some found
    /\ discover_urls (S (S fuel)) w max_pages domain
       = Some (Py.slice_to max_pages
                 match found with
                 | [] => [site_root domain]
                 | _ => found
                 end)
    /\ (forall a1 a2 a3 b1 b2 b3,
           max_pages = 4 -> urls1 = [a1; a2; a3] -> urls2 = [b1; b2; b3] ->
           discover_urls (S (S fuel)) w max_pages domain
           = Some (map Py.strip [a1; a2; a3; b1])).
Proof.
  intros w fuel max_pages domain c1 c2 urls1 urls2 index first second found
    Hindex Hc1 Hc2.
  pose proof (urlset_urls fuel w max_pages (Py.strip c1) urls1 Hc1) as H1.
  pose proof (urlset_urls fuel w max_pages (Py.strip c2) urls2 Hc2) as H2.
  fold first in H1. fold second in H2.
  assert (H3 : extract_all_page_urls (S (S fuel)) w max_pages index
               = Some found).
  { change (extract_all_page_urls (S (S fuel)) w max_pages index)
      with (sitemap_level (extract_all_page_urls (S fuel) w max_pages) w
              max_pages index).
    unfold sitemap_level. rewrite Hindex.
    change (findall (sitemap_ns "sitemap") (Sample.sitemap_index [c1; c2]))
      with [Element (sitemap_ns "sitemap") None
              [Element (sitemap_ns "loc") (Some c1) []];
            Element (sitemap_ns "sitemap") None
              [Element (sitemap_ns "loc") (Some c2) []]].
    cbv beta iota.
    rewrite (visit_sitemaps_concat _ max_pages _ [first; second] []).
    - cbn [List.concat app]. rewrite app_nil_r. reflexivity.
    - repeat constructor.
      + exists (Element (sitemap_ns "loc") (Some c1) []), c1.
        split; [reflexivity|]. split; [reflexivity|exact H1].
      + exists (Element (sitemap_ns "loc") (Some c2) []), c2.
        split; [reflexivity|]. split; [reflexivity|exact H2]. }
  assert (H4 : discover_urls (S (S fuel)) w max_pages domain
               = Some (Py.slice_to max_pages
                         match found with
                         | [] => [site_root domain]
                         | _ => found
                         end)).
  { unfold discover_urls. fold index. rewrite H3. reflexivity. }
  repeat split; try assumption.
  intros a1 a2 a3 b1 b2 b3 Hcap Hu1 Hu2. rewrite H4.
  subst found first second max_pages urls1 urls2. reflexivity.
Qed.

Lemma two_sitemaps_capped_at_four_witness :
  let w := Sample.site (Sample.page []) in
  discover_urls 2 w 4 "example.com" = Some ["a1"; "a2"; "a3"; "b1"]
  /\ extract_all_page_urls 1 w 2 Sample.child_2 = Some ["b1"; "b2"]
  /\ discover_urls 2 w 2 "example.com" = Some ["a1"; "a2"]
  /\ discover_urls 2 w 0 "example.com" = Some []
  /\ discover_urls 2 w (-1) "example.com" = Some ["a1"; "a2"].
Proof.
  cbv zeta.
  pose proof (fun max_pages =>
                two_sitemaps_capped_at_four (Sample.site (Sample.page [])) 0
                  max_pages "example.com" Sample.child_1 Sample.child_2
                  ["a1"; "a2"; "a3"] ["b1"; "b2"; "b3"]
                  eq_refl eq_refl eq_refl) as H.
  split; [|split; [|split; [|split]]].
  - exact (proj2 (proj2 (proj2 (proj2 (H 4)))) "a1" "a2" "a3" "b1" "b2" "b3"
             eq_refl eq_refl eq_refl).
  - exact (proj1 (proj2 (H 2))).
  - exact (proj1 (proj2 (proj2 (proj2 (H 2))))).
  - exact (proj1 (proj2 (proj2 (proj2 (H 0))))).
  - exact (proj1 (proj2 (proj2 (proj2 (H (-1)))))).
Defined.

Lemma sitemap_level_unavailable :
  forall recurse w max_pages sitemap_url,
    (exists e, fetch_sitemap w sitemap_url = Raise e)
    \/ fetch_sitemap w sitemap_url = Ret None ->
    sitemap_level recurse w max_pages sitemap_url = Some [].
Proof.
  intros recurse w max_pages sitemap_url [[e H]|H]; unfold sitemap_level;
    rewrite H; [reflexivity|].
  unfold Py.slice_to. destruct (0 <=? max_pages); apply f_equal, firstn_nil.
Qed.

Lemma fetch_sitemap_unavailable :
  forall w sitemap_url,
    (exists e, requests_get w sitemap_url = Raise e)
    \/ (exists response,
          requests_get w sitemap_url = Ret response
          /\ ((exists e, raise_for_status response = Raise e)
              \/ Py.contains "xml" (or_empty (content_type response)) = false
              \/ exists e, xml_parser w (body response) = Raise e)) ->
    (exists e, fetch_sitemap w sitemap_url = Raise e)
    \/ fetch_sitemap w sitemap_url = Ret None.
Proof.
  intros w sitemap_url [[e H]|[response [Hget H]]]; unfold fetch_sitemap.
  - rewrite H. left. exists e. reflexivity.
  - rewrite Hget. cbn [bind].
    destruct (raise_for_status response) as [[]|e0] eqn:Hstatus;
      [|left; exists e0; reflexivity].
    cbn [bind].
    destruct (Py.contains "xml" (or_empty (content_type response))) eqn:Hxml;
      [|right; reflexivity].
    destruct H as [[e H]|[H|[e H]]]; [discriminate|discriminate|].
    rewrite H. left. exists e. reflexivity.
Qed.

(** X17: when the sitemap cannot be used (the request raises, the status is
    an error status, the content type does not mention xml, or the document
    does not parse), sitemap discovery returns the empty list instead of
    raising, and for a page cap of at least 1 the driver audits exactly the
    home page: the normalised domain without trailing slash. *)
Theorem unusable_sitemap_falls_back_to_home_page :
  forall (fuel : nat) (w : world) (max_pages : Z) (domain : string),
    let sitemap_url := (site_root domain ++ "/sitemap.xml")%string in
    (exists e, requests_get w sitemap_url = Raise e)
    \/ (exists response,
          requests_get w sitemap_url = Ret response
          /\ ((exists e, raise_for_status response = Raise e)
              \/ Py.contains "xml" (or_empty (content_type response)) = false
              \/ exists e, xml_parser w (body response) = Raise e)) ->
    extract_all_page_urls (S fuel) w max_pages sitemap_url = Some []
    /\ (1 <= max_pages ->
        discover_urls (S fuel) w max_pages domain = Some [site_root domain]).
Proof.
  intros fuel w max_pages domain sitemap_url H.
  assert (Hex : extract_all_page_urls (S fuel) w max_pages sitemap_url = Some []).
  { cbn [extract_all_page_urls]. apply sitemap_level_unavailable.
    apply fetch_sitemap_unavailable. exact H. }
  split; [exact Hex|]. intros Hcap. unfold discover_urls.
  fold sitemap_url. rewrite Hex. unfold Py.slice_to.
  destruct (Z.leb_spec 0 max_pages); [|lia].
  destruct (Z.to_nat max_pages) eqn:Hn; [lia|].
  cbn [firstn]. rewrite firstn_nil. reflexivity.
Qed.

Lemma unusable_sitemap_falls_back_to_home_page_witness :
  discover_urls 1 Sample.unreachable 10 "example.com/"
  = Some ["https://example.com"].
Proof.
  apply (unusable_sitemap_falls_back_to_home_page 0 Sample.unreachable 10
           "example.com/").
  - left. eexists. reflexivity.
  - lia.
Defined.

(** X18: whenever discovery returns, for a page cap of at least 1 it
    returns between 1 and [max_pages] URLs (the home page when the sitemap
    gives none), and every level of the sitemap recursion returns at most
    [max_pages] URLs; with a page cap of 0 nothing is audited. *)
Theorem discovered_urls_within_cap :
  forall (fuel : nat) (w : world) (max_pages : Z) (domain sitemap_url : string)
         (urls found : list string),
    0 <= max_pages ->
    (extract_all_page_urls fuel w max_pages sitemap_url = Some found ->
     Py.len found <= max_pages)
    /\ (discover_urls fuel w max_pages domain = Some urls ->
        Py.len urls <= max_pages
        /\ (1 <= max_pages -> 1 <= Py.len urls)
        /\ (max_pages = 0 -> urls = [])).
Proof.
  intros fuel w max_pages domain sitemap_url urls found Hcap.
  split; [apply extract_within_cap; exact Hcap|].
  unfold discover_urls.
  destruct (extract_all_page_urls fuel w max_pages _) as [all_page_urls|];
    [|discriminate].
  intros H. inversion H as [Hurls]. clear H.
  set (candidates := match all_page_urls with
                     | [] => [site_root domain]
                     | _ => all_page_urls
                     end).
  assert (Hne : (1 <= List.length candidates)%nat)
    by (subst candidates; destruct all_page_urls; cbn; lia).
  split; [apply slice_to_length; exact Hcap|].
  unfold Py.slice_to, Py.len. destruct (Z.leb_spec 0 max_pages); [|lia].
  rewrite length_firstn. split; [lia|].
  intros Hzero. subst max_pages. reflexivity.
Qed.

Lemma discovered_urls_within_cap_witness :
  Py.len ["a1"; "a2"; "a3"; "b1"] <= 4.
Proof.
  apply (discovered_urls_within_cap 2 (Sample.site (Sample.page [])) 4
           "example.com" Sample.index_url ["a1"; "a2"; "a3"; "b1"]
           ["a1"; "a2"; "a3"; "b1"]);
    [lia|reflexivity].
Defined.

(** ** The report, in terms of the audited records *)

Lemma valid_rows_nonempty :
  forall records,
    existsb error_isna records = true -> filter error_isna records <> [].
Proof.
  intros records Hex. apply existsb_exists in Hex. destruct Hex as [r [Hin Hr]].
  intros Hf. assert (Hin' : In r (filter error_isna records))
    by (apply filter_In; split; assumption).
  rewrite Hf in Hin'. exact Hin'.
Qed.

Lemma cells_of_valid_rows :
  forall (A : Type) (field : page_audit -> A) records,
    map (fun r => match r with
                  | Audited _ a => Some (field a)
                  | Failed _ _ => None
                  end) (filter error_isna records)
    = map (fun a => Some (field a)) (audits records).
Proof.
  intros A field records. unfold audits.
  induction records as [|[url a|url e] records IH]; cbn; [reflexivity| |exact IH].
  rewrite IH. reflexivity.
Qed.

Lemma valid_rows_length :
  forall records,
    List.length (filter error_isna records) = List.length (audits records).
Proof.
  intros records. unfold audits.
  induction records as [|[url a|url e] records IH]; cbn; [reflexivity| |exact IH].
  rewrite IH. reflexivity.
Qed.

Lemma count_where_present :
  forall (A B : Type) (p : option B -> bool) (f : A -> B) (l : list A),
    count_where p (map (fun a => Some (f a)) l)
    = Py.len (filter (fun a => p (Some (f a))) l).
Proof.
  intros A B p f l. unfold count_where, Py.len. f_equal.
  induction l as [|x l IH]; cbn; [reflexivity|].
  destruct (p (Some (f x))); cbn; rewrite IH; reflexivity.
Qed.

Lemma present_cells :
  forall (A B : Type) (f : A -> B) (l : list A),
    present (map (fun a => Some (f a)) l) = map f l.
Proof.
  intros A B f l. unfold present.
  induction l as [|x l IH]; cbn; [reflexivity|]. rewrite IH. reflexivity.
Qed.

Lemma concat_map_flat_map :
  forall (A B : Type) (f : A -> list B) (l : list A),
    List.concat (map f l) = flat_map f l.
Proof.
  intros A B f l. induction l as [|x l IH]; cbn; [reflexivity|].
  rewrite IH. reflexivity.
Qed.

Lemma collect_issues_of_valid_part :
  forall records,
    existsb error_isna records = true ->
    collect_issues (valid_part records) = all_issues records.
Proof.
  intros records Hex.
  pose proof (valid_part_full records (valid_rows_nonempty records Hex)) as Hfull.
  known_columns Hfull. cbn [rows valid_part].
  rewrite !cells_of_valid_rows, !present_cells, !concat_map_flat_map.
  reflexivity.
Qed.

Lemma report_of_audited_records :
  forall records,
    existsb error_isna records = true ->
    exists s k,
      summarize (valid_part records) = Ret s
      /\ analyze_keywords (valid_part records) = Ret k
      /\ generate_comprehensive_report (DataFrame records)
         = Ret {| r_summary := Some s;
                  r_common_issues := most_common 10 (Counter (all_issues records));
                  r_keyword_analysis := Some k;
                  r_recommendations := [] |}.
Proof.
  intros records Hex.
  pose proof (valid_rows_nonempty records Hex) as Hne.
  destruct (aggregates_return _ (valid_part_full records Hne))
    as [[s Hs] [k Hk]].
  exists s, k. split; [exact Hs|]. split; [exact Hk|].
  rewrite report_of_valid_part.
  destruct (filter error_isna records) as [|r0 rs] eqn:Hf; [congruence|].
  rewrite Hs, Hk. cbn [bind].
  rewrite (collect_issues_of_valid_part records Hex). reflexivity.
Qed.

(** X19: as soon as one page was audited, the report is returned and its
    summary counts the audited records only: [total_pages] is their number,
    [pages_with_issues] is the number of them with a title/meta issue (the
    other three issue categories are not looked at),
    [pages_missing_meta_desc] the number whose description is the marker
    N/A, and [pages_missing_h1] the number whose H1 count is 0. *)
Theorem summary_counts_audited_records :
  forall records : list page_record,
    existsb error_isna records = true ->
    exists r s,
      generate_comprehensive_report (DataFrame records) = Ret r
      /\ r_summary r = Some s
      /\ total_pages s = Py.len (audits records)
      /\ pages_with_issues s
         = Py.len (filter (fun a => match Title_Meta_Issues a with
                                    | [] => false
                                    | _ => true
                                    end) (audits records))
      /\ pages_missing_meta_desc s
         = Py.len (filter (fun a => String.eqb (Meta_Description a) "N/A")
                     (audits records))
      /\ pages_missing_h1 s
         = Py.len (filter (fun a => H1_Count a =? 0) (audits records))
      /\ 1 <= total_pages s
      /\ pages_with_issues s <= total_pages s
      /\ pages_missing_meta_desc s <= total_pages s
      /\ pages_missing_h1 s <= total_pages s.
Proof.
  intros records Hex.
  destruct (report_of_audited_records records Hex) as [s [k [Hs [_ Hr]]]].
  eexists. exists s. split; [exact Hr|]. split; [reflexivity|].
  pose proof (valid_rows_nonempty records Hex) as Hne.
  pose proof (valid_part_full records Hne) as Hfull.
  revert Hs. known_columns Hfull. cbn [bind rows valid_part].
  rewrite !cells_of_valid_rows. intros Hs. inversion Hs as [Hs']. clear Hs Hs'.
  cbn [total_pages pages_with_issues pages_missing_meta_desc pages_missing_h1].
  rewrite !count_where_present.
  assert (Htotal : Py.len (filter error_isna records) = Py.len (audits records))
    by (unfold Py.len; rewrite valid_rows_length; reflexivity).
  rewrite Htotal.
  assert (Hpos : 1 <= Py.len (audits records)).
  { rewrite <- Htotal. unfold Py.len.
    destruct (filter error_isna records); [congruence|cbn; lia]. }
  repeat split; try reflexivity; try exact Hpos;
    unfold Py.len; apply inj_le, filter_length_le.
Qed.

Lemma summary_counts_audited_records_witness :
  exists r s,
    generate_comprehensive_report
      (DataFrame [Sample.page_A; Failed "C" "timed out"; Sample.page_B]) = Ret r
    /\ r_summary r = Some s
    /\ total_pages s = 2.
Proof.
  destruct (summary_counts_audited_records
              [Sample.page_A; Failed "C" "timed out"; Sample.page_B])
    as [r [s [Hr [Hs [Ht _]]]]]; [reflexivity|].
  exists r, s. split; [exact Hr|]. split; [exact Hs|exact Ht].
Defined.

(** X20: the common issues of the report are at most 10 entries, ordered by
    non-increasing count, and the count of each listed issue is the number
    of times it occurs in the four issue lists of all audited pages; failed
    pages contribute nothing. *)
Theorem common_issues_count_occurrences :
  forall records : list page_record,
    existsb error_isna records = true ->
    exists r,
      generate_comprehensive_report (DataFrame records) = Ret r
      /\ Py.len (r_common_issues r) <= 10
      /\ StronglySorted at_least (r_common_issues r)
      /\ (forall issue n,
            In (issue, n) (r_common_issues r) ->
            n = Z.of_nat (count_occ string_dec (all_issues records) issue)
            /\ 1 <= n)
      /\ (Py.len (encounter_order (all_issues records)) <= 10 ->
          forall issue,
            In issue (all_issues records) ->
            In issue (map fst (r_common_issues r))).
Proof.
  intros records Hex.
  destruct (report_of_audited_records records Hex) as [s [k [_ [_ Hr]]]].
  eexists. split; [exact Hr|]. cbn [r_common_issues].
  destruct (Counter_spec (all_issues records)) as [Hkeys [_ [_ Hentries]]].
  unfold most_common. change (Py.slice_to 10) with (@firstn (string * Z) 10).
  split; [unfold Py.len; rewrite length_firstn; lia|].
  split; [apply firstn_sorted, sort_desc_sorted|].
  split.
  - intros issue n Hin. apply in_firstn in Hin.
    apply (Permutation_in _ (sort_desc_perm _)) in Hin.
    exact (Hentries issue n Hin).
  - intros Hfew issue Hin.
    assert (Hlen : (List.length (sort_desc (Counter (all_issues records))) <= 10)%nat).
    { rewrite (Permutation_length (sort_desc_perm _)).
      rewrite <- (length_map fst), Hkeys. unfold Py.len in Hfew. lia. }
    rewrite firstn_all2 by exact Hlen.
    apply (Permutation_in issue
             (Permutation_sym (Permutation_map fst (sort_desc_perm _)))).
    rewrite Hkeys. apply in_encounter_order. exact Hin.
Qed.

Lemma common_issues_count_occurrences_witness :
  exists r,
    generate_comprehensive_report
      (DataFrame [Sample.page_A; Failed "C" "timed out"]) = Ret r
    /\ Py.len (r_common_issues r) <= 10.
Proof.
  destruct (common_issues_count_occurrences
              [Sample.page_A; Failed "C" "timed out"])
    as [r [Hr [Hlen _]]]; [reflexivity|].
  exists r. split; [exact Hr|exact Hlen].
Defined.

Lemma tally_keywords_spec :
  forall lists,
    map fst (tally_keywords lists)
    = encounter_order (map fst (List.concat lists))
    /\ forall k, counter_get k (tally_keywords lists)
                 = summed_count k (List.concat lists).
Proof.
  intros lists. unfold tally_keywords. rewrite tally_concat. split.
  - rewrite tally_keys, append_new_encounter_order. cbn [map app].
    rewrite <- (filter_ext (fun _ => true)) by reflexivity.
    induction (encounter_order _) as [|x l IH]; cbn; [|rewrite IH]; reflexivity.
  - intros k. rewrite tally_get. cbn [counter_get]. lia.
Qed.

(** X21: the keyword analysis of the report lists at most 20 keywords by
    non-increasing total; the total of each listed keyword is the sum of
    its counts over the top-keyword lists of all audited pages, and
    [total_unique_keywords] is the number of distinct keywords in those
    lists. *)
Theorem keyword_analysis_totals :
  forall records : list page_record,
    existsb error_isna records = true ->
    exists r k,
      generate_comprehensive_report (DataFrame records) = Ret r
      /\ r_keyword_analysis r = Some k
      /\ Py.len (top_keywords k) <= 20
      /\ StronglySorted at_least (top_keywords k)
      /\ (forall keyword n,
            In (keyword, n) (top_keywords k) ->
            n = summed_count keyword (List.concat (top_keyword_lists records)))
      /\ total_unique_keywords k
         = Py.len (encounter_order
                     (map fst (List.concat (top_keyword_lists records)))).
Proof.
  intros records Hex.
  destruct (report_of_audited_records records Hex) as [s [k [_ [Hk Hr]]]].
  eexists. exists k. split; [exact Hr|]. split; [reflexivity|].
  pose proof (valid_rows_nonempty records Hex) as Hne.
  pose proof (valid_part_full records Hne) as Hfull.
  revert Hk. known_columns Hfull. cbn [bind rows valid_part].
  rewrite present_top_keywords. intros Hk. inversion Hk as [Hk']. clear Hk Hk'.
  cbn [top_keywords total_unique_keywords].
  destruct (tally_keywords_spec (top_keyword_lists records)) as [Hkeys Hget].
  unfold most_common. change (Py.slice_to 20) with (@firstn (string * Z) 20).
  split; [unfold Py.len; rewrite length_firstn; lia|].
  split; [apply firstn_sorted, sort_desc_sorted|].
  split.
  - intros keyword n Hin. apply in_firstn in Hin.
    apply (Permutation_in _ (sort_desc_perm _)) in Hin.
    rewrite <- Hget. symmetry. apply counter_get_entry; [|exact Hin].
    rewrite Hkeys. apply encounter_order_NoDup.
  - unfold Py.len. rewrite <- Hkeys, length_map. reflexivity.
Qed.

Lemma keyword_analysis_totals_witness :
  exists r k,
    generate_comprehensive_report (DataFrame [Sample.page_A; Sample.page_B])
    = Ret r
    /\ r_keyword_analysis r = Some k
    /\ top_keywords k = [("seo", 8); ("widget", 1)]
    /\ total_unique_keywords k = 2.
Proof.
  destruct (keyword_analysis_totals [Sample.page_A; Sample.page_B])
    as [r [k [Hr [Hk _]]]]; [reflexivity|].
  exists r, k. split; [exact Hr|]. split; [exact Hk|].
  vm_compute in Hr. inversion Hr as [Hr']. subst r. cbn in Hk.
  inversion Hk as [Hk']. split; reflexivity.
Defined.

(** ** The driver *)

Lemma get_seo_data_url :
  forall w url, record_url (get_seo_data w url) = url.
Proof.
  intros w url. unfold get_seo_data.
  destruct (audit_page w url); reflexivity.
Qed.

Lemma report_returns :
  forall records,
    exists r, generate_comprehensive_report (DataFrame records) = Ret r.
Proof.
  intros records. destruct (existsb error_isna records) eqn:Hex.
  - destruct (report_of_audited_records records Hex) as [s [k [_ [_ Hr]]]].
    eexists. exact Hr.
  - rewrite report_of_valid_part.
    assert (Hf : filter error_isna records = []).
    { induction records as [|r records IH]; [reflexivity|].
      cbn in Hex |- *. apply Bool.orb_false_iff in Hex.
      destruct Hex as [Hr Hrest]. rewrite Hr. exact (IH Hrest). }
    rewrite Hf. eexists. reflexivity.
Qed.

(** X22: whenever the crawl returns, its table has exactly one row per
    discovered URL, in crawl order and carrying that URL, whether the page
    was audited or failed; for a non-negative page cap there are at most
    [max_pages] rows; and the report is returned, never an exception. *)
Theorem crawl_has_one_row_per_url :
  forall (fuel : nat) (w : world) (domain : string) (max_pages : Z)
         (df : dataframe) (rep : outcome report),
    run_enhanced_seo_audit fuel w domain max_pages = Some (df, rep) ->
    discover_urls fuel w max_pages domain = Some (map record_url (rows df))
    /\ rows df = map (get_seo_data w) (map record_url (rows df))
    /\ (0 <= max_pages -> Py.len (rows df) <= max_pages)
    /\ exists r, rep = Ret r.
Proof.
  intros fuel w domain max_pages df rep H. unfold run_enhanced_seo_audit in H.
  destruct (discover_urls fuel w max_pages domain) as [urls|] eqn:Hurls;
    [|discriminate].
  inversion H as [[Hdf Hrep]]. clear H.
  assert (Hmap : map record_url (map (get_seo_data w) urls) = urls).
  { rewrite map_map. rewrite (map_ext _ (fun u => u)); [apply map_id|].
    intros u. apply get_seo_data_url. }
  cbn [rows DataFrame]. rewrite Hmap.
  split; [reflexivity|]. split; [reflexivity|]. split.
  - intros Hcap. unfold Py.len. rewrite length_map.
    unfold discover_urls in Hurls.
    destruct (extract_all_page_urls fuel w max_pages _); [|discriminate].
    inversion Hurls. apply slice_to_length. exact Hcap.
  - apply report_returns.
Qed.

Lemma crawl_has_one_row_per_url_witness :
  exists df rep,
    run_enhanced_seo_audit 1 Sample.unreachable "example.com" 5 = Some (df, rep)
    /\ map record_url (rows df) = ["https://example.com"]
    /\ exists r, rep = Ret r.
Proof.
  do 2 eexists. split; [reflexivity|].
  split; [reflexivity|].
  eapply (crawl_has_one_row_per_url 1 Sample.unreachable "example.com" 5).
  reflexivity.
Defined.

Lemma rstrip_last_char :
  forall p s prev c,
    Re.last_char prev (Py.rstrip p s) = Some c ->
    (Py.rstrip p s = "" /\ prev = Some c) \/ p c = false.
Proof.
  intros p s. induction s as [|a s IH]; intros prev c; cbn [Py.rstrip].
  - cbn. intros H. left. split; [reflexivity|exact H].
  - destruct (Py.rstrip p s) as [|b r] eqn:Hr.
    + destruct (p a) eqn:Ha; cbn.
      * intros H. left. split; [reflexivity|exact H].
      * intros H. inversion H. subst. right. exact Ha.
    + intros H. cbn [Re.last_char] in H.
      destruct (IH (Some a) c H) as [[Hempty _]|Hc]; [discriminate|].
      right. exact Hc.
Qed.

Lemma is_prefix_append :
  forall p s, Py.is_prefix p (p ++ s) = true.
Proof.
  induction p as [|a p IH]; intros s; cbn; [reflexivity|].
  rewrite Ascii.eqb_refl. apply IH.
Qed.

Lemma is_prefix_head :
  forall x p a s, Py.is_prefix (String x p) (String a s) = true -> x = a.
Proof.
  intros x p a s H. cbn [Py.is_prefix] in H.
  apply Bool.andb_true_iff in H. destruct H as [H _].
  apply Ascii.eqb_eq. exact H.
Qed.

(** X23: normalising a domain always gives a text that starts with
    [http://] or [https://] and changes nothing when applied again; the
    site root built from it, to which [/sitemap.xml] is appended and which
    serves as the fall-back home page, is never empty and never ends with a
    slash. *)
Theorem site_root_has_no_trailing_slash :
  forall domain : string,
    starts_with_scheme (normalize_domain domain) = true
    /\ normalize_domain (normalize_domain domain) = normalize_domain domain
    /\ site_root domain <> ""
    /\ forall c, Re.last_char None (site_root domain) = Some c -> c <> "/"%char.
Proof.
  intros domain.
  assert (Hscheme : starts_with_scheme (normalize_domain domain) = true).
  { unfold normalize_domain. destruct (starts_with_scheme domain) eqn:Hs;
      [exact Hs|].
    unfold starts_with_scheme. rewrite (is_prefix_append "https://" domain).
    apply Bool.orb_true_r. }
  split; [exact Hscheme|]. split.
  { unfold normalize_domain at 1. rewrite Hscheme. reflexivity. }
  split.
  - unfold site_root. intros Hempty.
    destruct (normalize_domain domain) as [|a rest];
      [cbn in Hscheme; discriminate|].
    assert (Ha : a = "h"%char).
    { unfold starts_with_scheme in Hscheme.
      apply Bool.orb_true_iff in Hscheme.
      destruct Hscheme as [H|H]; apply is_prefix_head in H; congruence. }
    subst a. cbn [Py.rstrip] in Hempty.
    destruct (Py.rstrip (Urllib.is_char "/") rest); cbn in Hempty;
      discriminate.
  - intros c Hc. unfold site_root in Hc.
    destruct (rstrip_last_char _ _ _ _ Hc) as [[_ H]|H]; [discriminate|].
    intros ->. discriminate.
Qed.

Lemma site_root_has_no_trailing_slash_witness :
  site_root "example.com//" = "https://example.com"
  /\ "m"%char <> "/"%char.
Proof.
  split; [reflexivity|].
  apply (proj2 (proj2 (proj2 (site_root_has_no_trailing_slash "example.com//")))).
  reflexivity.
Defined.

(** ** Breadcrumbs *)

Lemma select_breadcrumbs_skips :
  forall page before rest,
    (forall selector texts,
        In selector before -> select_one page selector = Some texts ->
        filter Py.nonempty texts = []) ->
    select_breadcrumbs page (before ++ rest) []
    = select_breadcrumbs page rest [].
Proof.
  intros page before rest. induction before as [|s before IH]; intros H;
    [reflexivity|].
  cbn [app select_breadcrumbs].
  destruct (select_one page s) as [texts|] eqn:Hs.
  - rewrite (H s texts (or_introl eq_refl) Hs).
    apply IH. intros selector t Hin. apply H. right. exact Hin.
  - apply IH. intros selector t Hin. apply H. right. exact Hin.
Qed.

(** X24: the breadcrumbs are the non-empty texts of the first selector, in
    the fixed order of the five selectors, whose container holds at least
    one non-empty text; containers without text are passed over, and the
    JSON-LD scripts are then not read at all. *)
Theorem breadcrumbs_from_first_selector_with_text :
  forall (page : breadcrumb_sources) (before after : list string)
         (selector : string) (texts : list string),
    breadcrumb_selectors = before ++ selector :: after ->
    (forall s t, In s before -> select_one page s = Some t ->
                 filter Py.nonempty t = []) ->
    select_one page selector = Some texts ->
    filter Py.nonempty texts <> [] ->
    extract_breadcrumbs page = map JString (filter Py.nonempty texts).
Proof.
  intros page before after selector texts Hsel Hbefore Hmatch Htexts.
  unfold extract_breadcrumbs. rewrite Hsel.
  rewrite (select_breadcrumbs_skips page before (selector :: after) Hbefore).
  cbn [select_breadcrumbs]. rewrite Hmatch.
  destruct (filter Py.nonempty texts) as [|t ts]; [congruence|reflexivity].
Qed.

Lemma breadcrumbs_from_first_selector_with_text_witness :
  extract_breadcrumbs
    {| select_one := fun s =>
         if String.eqb s ".breadcrumb" then Some [""; ""]
         else if String.eqb s ".breadcrumbs" then Some ["Home"; ""; "Blog"]
         else None;
       ld_json_scripts := [Ret (JString "ignored")] |}
  = [JString "Home"; JString "Blog"].
Proof.
  apply (breadcrumbs_from_first_selector_with_text _
           [("nav[aria-label*=" ++ quote ++ "breadcrumb" ++ quote ++ " i]")%string;
            ".breadcrumb"]
           [("[class*=" ++ quote ++ "breadcrumb" ++ quote ++ "]")%string;
            ".elementor-widget-breadcrumbs"]
           ".breadcrumbs" ["Home"; ""; "Blog"]).
  - reflexivity.
  - intros s t [Hs|[Hs|[]]] Ht; subst s; cbn in Ht; inversion Ht; reflexivity.
  - reflexivity.
  - discriminate.
Defined.

Lemma append_names_app :
  forall items breadcrumbs,
    append_names items breadcrumbs = breadcrumbs ++ append_names items [].
Proof.
  induction items as [|item items IH]; intros breadcrumbs;
    cbn [append_names]; [rewrite app_nil_r; reflexivity|].
  destruct item as [| | | | |members]; try (rewrite app_nil_r; reflexivity).
  destruct (json_get "name" members) as [name|]; [|apply IH].
  destruct (json_truthy name); [|apply IH].
  rewrite (IH (breadcrumbs ++ [name])), (IH ([] ++ [name])).
  rewrite <- app_assoc. reflexivity.
Qed.

Lemma script_breadcrumbs_app :
  forall data breadcrumbs,
    script_breadcrumbs data breadcrumbs
    = breadcrumbs ++ script_breadcrumbs data [].
Proof.
  intros data breadcrumbs. unfold script_breadcrumbs.
  destruct data as [[| | | | |members]|e]; try (rewrite app_nil_r; reflexivity).
  destruct (json_get "@type" members) as [[| | |t| |]|];
    try (rewrite app_nil_r; reflexivity).
  destruct (String.eqb t "BreadcrumbList"); [|rewrite app_nil_r; reflexivity].
  destruct (json_get "itemListElement" members) as [[| | | |items|]|];
    try (rewrite app_nil_r; reflexivity).
  apply append_names_app.
Qed.

Lemma scripts_concat :
  forall scripts breadcrumbs,
    fold_left (fun acc data => script_breadcrumbs data acc) scripts breadcrumbs
    = breadcrumbs
      ++ List.concat (map (fun data => script_breadcrumbs data []) scripts).
Proof.
  induction scripts as [|data scripts IH]; intros breadcrumbs;
    cbn [fold_left map List.concat]; [rewrite app_nil_r; reflexivity|].
  rewrite IH, (script_breadcrumbs_app data breadcrumbs), <- app_assoc.
  reflexivity.
Qed.

Lemma append_names_all :
  forall items names,
    Forall2 (fun item name =>
               exists members,
                 item = JObject members
                 /\ json_get "name" members = Some (JString name)
                 /\ name <> "") items names ->
    append_names items [] = map JString names.
Proof.
  intros items names H.
  induction H as [|item name items names [members [Hitem [Hname Hne]]] _ IH];
    [reflexivity|].
  subst item. cbn [append_names map]. rewrite Hname.
  assert (Htruthy : json_truthy (JString name) = true)
    by (destruct name; [congruence|reflexivity]).
  rewrite Htruthy, append_names_app, IH. reflexivity.
Qed.

(** X25: when no selector gives a non-empty text, the breadcrumbs are read
    from the JSON-LD scripts: the contributions of the scripts are
    concatenated in document order, a script that does not decode
    contributes nothing, and a decoded [BreadcrumbList] object whose
    [itemListElement] is an array of objects with non-empty string names
    contributes exactly those names, in order. *)
Theorem breadcrumbs_from_json_ld :
  forall page : breadcrumb_sources,
    (forall selector texts,
        select_one page selector = Some texts ->
        filter Py.nonempty texts = []) ->
    extract_breadcrumbs page
    = List.concat (map (fun data => script_breadcrumbs data [])
                     (ld_json_scripts page))
    /\ (forall e, script_breadcrumbs (Raise e) [] = [])
    /\ (forall members items names,
          json_get "@type" members = Some (JString "BreadcrumbList") ->
          json_get "itemListElement" members = Some (JArray items) ->
          Forall2 (fun item name =>
                     exists item_members,
                       item = JObject item_members
                       /\ json_get "name" item_members = Some (JString name)
                       /\ name <> "") items names ->
          script_breadcrumbs (Ret (JObject members)) [] = map JString names).
Proof.
  intros page Hnone. split; [|split].
  - unfold extract_breadcrumbs.
    assert (Hsel : select_breadcrumbs page breadcrumb_selectors [] = []).
    { rewrite <- (app_nil_r breadcrumb_selectors).
      rewrite select_breadcrumbs_skips; [reflexivity|].
      intros selector texts _. apply Hnone. }
    rewrite Hsel. apply (scripts_concat (ld_json_scripts page) []).
  - reflexivity.
  - intros members items names Htype Hitems Hall.
    unfold script_breadcrumbs. rewrite Htype, Hitems.
    cbn [String.eqb]. change (String.eqb "BreadcrumbList" "BreadcrumbList") with true.
    cbv iota. apply append_names_all. exact Hall.
Qed.

Lemma breadcrumbs_from_json_ld_witness :
  extract_breadcrumbs
    {| select_one := fun _ => None;
       ld_json_scripts :=
         [Raise (Exn "JSONDecodeError" "Expecting value");
          Ret (JObject
                 [("@context", JString "https://schema.org");
                  ("@type", JString "BreadcrumbList");
                  ("itemListElement",
                   JArray [JObject [("position", JNumber (inject_Z 1));
                                    ("name", JString "Home")];
                           JObject [("position", JNumber (inject_Z 2));
                                    ("name", JString "Blog")];
                           JObject [("position", JNumber (inject_Z 3));
                                    ("name", JString "Post")]])])] |}
  = [JString "Home"; JString "Blog"; JString "Post"].
Proof.
  match goal with
  | |- extract_breadcrumbs ?p = _ =>
      destruct (breadcrumbs_from_json_ld p) as [H _]
  end.
  - intros s t Hs. cbn in Hs. discriminate.
  - rewrite H. reflexivity.
Defined.

(** ** The keyword density script *)

Lemma densities_return :
  forall items total_words,
    total_words <> 0 ->
    KeywordDensity.densities items total_words
    = Ret (map (fun kv => (fst kv,
                           (inject_Z (snd kv) / inject_Z total_words
                            * inject_Z 100)%Q)) items).
Proof.
  intros items total_words Htotal.
  induction items as [|[word count] items IH]; cbn [KeywordDensity.densities map];
    [reflexivity|].
  rewrite divide_returns by exact Htotal. cbn [bind]. rewrite IH. reflexivity.
Qed.

(** X26: the keyword density of a text is always returned, without division
    by zero even when no word is left after cleaning (the result is then
    empty); it has one entry per distinct cleaned word, in first-occurrence
    order, none of them a stop word, and the density of a word is its
    number of occurrences divided by the number of cleaned words, times
    100. *)
Theorem keyword_density_returns :
  forall (word_tokenize : string -> list string) (stop_words : list string)
         (text : string),
    let words := KeywordDensity.clean_text word_tokenize stop_words text in
    exists density,
      KeywordDensity.keyword_density word_tokenize stop_words text = Ret density
      /\ map fst density = encounter_order words
      /\ (words = [] -> density = [])
      /\ (forall word d,
            In (word, d) density ->
            List.existsb (String.eqb word) stop_words = false
            /\ d = (inject_Z (Z.of_nat (count_occ string_dec words word))
                    / inject_Z (Py.len words) * inject_Z 100)%Q).
Proof.
  intros word_tokenize stop_words text words.
  unfold KeywordDensity.keyword_density. fold words.
  destruct (Counter_spec words) as [Hkeys [_ [_ Hentries]]].
  destruct words as [|w0 ws] eqn:Hwords.
  - exists []. split; [reflexivity|]. split; [reflexivity|].
    split; [reflexivity|]. intros word d Hin. destruct Hin.
  - rewrite densities_return by (unfold Py.len; cbn [List.length]; lia).
    eexists. split; [reflexivity|].
    split; [rewrite map_map; cbn [fst]; exact Hkeys|].
    split; [discriminate|].
    intros word d Hin. apply in_map_iff in Hin.
    destruct Hin as [[k v] [Heq Hin]]. cbn [fst snd] in Heq.
    inversion Heq; subst word d. clear Heq.
    destruct (Hentries k v Hin) as [Hv _]. split.
    + assert (Hk : In k (w0 :: ws)).
      { apply in_encounter_order. rewrite <- Hkeys. apply in_map_iff.
        exists (k, v). split; [reflexivity|exact Hin]. }
      rewrite <- Hwords in Hk. subst words.
      unfold KeywordDensity.clean_text in Hk. apply filter_In in Hk.
      destruct Hk as [_ Hk]. apply Bool.negb_true_iff in Hk. exact Hk.
    + rewrite Hv. reflexivity.
Qed.

Lemma keyword_density_returns_witness :
  KeywordDensity.keyword_density (fun _ => []) ["the"] "..." = Ret [].
Proof.
  destruct (keyword_density_returns (fun _ => []) ["the"] "...")
    as [density [Hd [_ [Hempty _]]]].
  rewrite Hd. rewrite (Hempty eq_refl). reflexivity.
Defined.
